(** * BPMN token engine (bpmn_engine): a shallow embedding and its properties

    The embedding follows the headers of [bpmn_engine]:
    [Token.h], [ProcessContext.h], [BPMNElement.h], [Activity.h],
    [Gateway.h] and [Process.h].

    Conventions of the model.
    - [int] fields are [Z].  Signed overflow is undefined in C++; the only
      counters that grow without a guard are [tokensStarted],
      [tokensCompleted] and the histogram entries, which grow by one per
      call.  [currentlyUsed] is shown to stay within [0, capacity].
    - [double] fields are exact rationals [Q]: rounding, infinities and NaN
      are outside the model.
    - [std::map<std::string, V>] is [gmap string V].
    - [BPMNElement*] is an index into the vector [Process::elements]; an
      index outside the vector stands for a null or dangling pointer.
    - [std::cout] and [std::cerr] are one list of structured lines, in
      program order.
    - a rule's [std::function<bool(const Token&)>] may capture and mutate
      state of its own: it is a function [Token -> W -> bool * W] over a
      type [W] chosen by whoever builds the process.
    - [execute] calls the next node recursively in the source; the model
      bounds the depth of these calls by a fuel argument and returns [None]
      when the fuel is exhausted or an edge points outside the vector. *)

From Stdlib Require Import ZArith QArith Qminmax String List Lia.
From stdpp Require Import base option list strings gmap fin_maps.

Local Open Scope string_scope.
Local Open Scope list_scope.
Local Open Scope Z_scope.

(** ** Token.h *)

Module Token.

Record t := mk {
  candidateId : Z;
  data : gmap string string;
  startTime : Q;
  currentTime : Q;
  completed : bool;
  endReason : string
}.

(** [Token(int id, double startTime)] *)
Definition new (id : Z) (start : Q) : t :=
  mk id ∅ start start false "".

Definition getCandidateId (tk : t) : Z := candidateId tk.
Definition getStartTime (tk : t) : Q := startTime tk.
Definition getCurrentTime (tk : t) : Q := currentTime tk.
Definition getCycleTime (tk : t) : Q := (currentTime tk - startTime tk)%Q.
Definition isCompleted (tk : t) : bool := completed tk.
Definition getEndReason (tk : t) : string := endReason tk.

(** [data[key] = value;] *)
Definition setData (key value : string) (tk : t) : t :=
  mk (candidateId tk) (<[key := value]> (data tk)) (startTime tk)
     (currentTime tk) (completed tk) (endReason tk).

(** [getData] is a member function like the others: it hands back its
    result together with the receiver as the call leaves it.
    [auto it = data.find(key); return (it != data.end()) ? it->second : "";] *)
Definition getData (key : string) (tk : t) : string * t :=
  (match data tk !! key with
   | Some v => v
   | None => ""
   end, tk).

(** [currentTime += minutes;] *)
Definition advanceTime (minutes : Q) (tk : t) : t :=
  mk (candidateId tk) (data tk) (startTime tk)
     (currentTime tk + minutes)%Q (completed tk) (endReason tk).

(** [completed = true; endReason = reason;] *)
Definition complete (reason : string) (tk : t) : t :=
  mk (candidateId tk) (data tk) (startTime tk)
     (currentTime tk) true reason.

End Token.

(** ** ProcessContext.h: struct Resource *)

Module Resource.

Record t := mk {
  name : string;
  totalAvailable : Z;
  currentlyUsed : Z;
  costPerHour : Q;
  totalCost : Q;
  totalTimeUsed : Q
}.

(** [Resource(const std::string& n, int available, double cost)] *)
Definition new (n : string) (available : Z) (cost : Q) : t :=
  mk n available 0 cost 0 0.

Definition isAvailable (r : t) : bool :=
  currentlyUsed r <? totalAvailable r.

(** [if (isAvailable()) currentlyUsed++;] *)
Definition acquire (r : t) : t :=
  if isAvailable r
  then mk (name r) (totalAvailable r) (currentlyUsed r + 1)
          (costPerHour r) (totalCost r) (totalTimeUsed r)
  else r.

(** [if (currentlyUsed > 0) currentlyUsed--;] *)
Definition release (r : t) : t :=
  if 0 <? currentlyUsed r
  then mk (name r) (totalAvailable r) (currentlyUsed r - 1)
          (costPerHour r) (totalCost r) (totalTimeUsed r)
  else r.

(** [totalTimeUsed += minutes; totalCost += (minutes / 60.0) * costPerHour;] *)
Definition addUsage (minutes : Q) (r : t) : t :=
  mk (name r) (totalAvailable r) (currentlyUsed r) (costPerHour r)
     (totalCost r + (minutes / 60) * costPerHour r)%Q
     (totalTimeUsed r + minutes)%Q.

Definition getUtilization (r : t) : Q :=
  if 0 <? totalAvailable r
  then (inject_Z (currentlyUsed r) / inject_Z (totalAvailable r) * 100)%Q
  else 0%Q.

(** The three mutating member functions, as data, for statements about
    arbitrary call sequences. *)
Inductive op :=
| Acquire
| Release
| AddUsage (minutes : Q).

Definition step (o : op) (r : t) : t :=
  match o with
  | Acquire => acquire r
  | Release => release r
  | AddUsage minutes => addUsage minutes r
  end.

Definition run (ops : list op) (r : t) : t :=
  fold_left (fun acc o => step o acc) ops r.

(** Every state passed through while [ops] runs, the initial one first. *)
Fixpoint states (ops : list op) (r : t) : list t :=
  match ops with
  | [] => [r]
  | o :: rest => r :: states rest (step o r)
  end.

Definition inv (r : t) : Prop :=
  0 <= currentlyUsed r <= totalAvailable r.

End Resource.

(** ** ProcessContext.h: class ProcessContext *)

Module ProcessContext.

Record t := mk {
  resources : gmap string Resource.t;
  currentSimulationTime : Q;
  tokensStarted : Z;
  tokensCompleted : Z;
  endReasons : gmap string Z
}.

(** [ProcessContext()] *)
Definition new : t := mk ∅ 0 0 0 ∅.

(** [resources.emplace(name, Resource(name, quantity, costPerHour));]
    [emplace] keeps the entry already stored under [name], if any. *)
Definition addResource (n : string) (quantity : Z) (cost : Q) (c : t) : t :=
  mk (match resources c !! n with
      | Some _ => resources c
      | None => <[n := Resource.new n quantity cost]> (resources c)
      end)
     (currentSimulationTime c) (tokensStarted c) (tokensCompleted c)
     (endReasons c).

(** [getResource] returns a pointer into the map, or [nullptr]. *)
Definition getResource (n : string) (c : t) : option Resource.t :=
  resources c !! n.

(** A write through the pointer obtained from [getResource n]. *)
Definition setResource (n : string) (r : Resource.t) (c : t) : t :=
  mk (<[n := r]> (resources c))
     (currentSimulationTime c) (tokensStarted c) (tokensCompleted c)
     (endReasons c).

Definition getCurrentTime (c : t) : Q := currentSimulationTime c.

Definition setCurrentTime (time : Q) (c : t) : t :=
  mk (resources c) time (tokensStarted c) (tokensCompleted c)
     (endReasons c).

(** [tokensStarted++;] *)
Definition tokenStarted (c : t) : t :=
  mk (resources c) (currentSimulationTime c) (tokensStarted c + 1)
     (tokensCompleted c) (endReasons c).

(** [tokensCompleted++; endReasons[reason]++;]
    [operator[]] creates a missing entry with value 0 before [++]. *)
Definition tokenCompleted (reason : string) (c : t) : t :=
  mk (resources c) (currentSimulationTime c) (tokensStarted c)
     (tokensCompleted c + 1)
     (<[reason := default 0 (endReasons c !! reason) + 1]> (endReasons c)).

Definition getTokensStarted (c : t) : Z := tokensStarted c.
Definition getTokensCompleted (c : t) : Z := tokensCompleted c.
Definition getEndReasons (c : t) : gmap string Z := endReasons c.

(** [sum(endReasonHistogram.values())] *)
Definition histogramTotal (c : t) : Z :=
  map_fold (fun (_ : string) (v acc : Z) => v + acc) 0 (endReasons c).

(** Everything a holder of a [ProcessContext&] can call that mutates it,
    the resource member functions reached through [getResource]
    included. *)
Inductive op :=
| AddResource (n : string) (quantity : Z) (cost : Q)
| SetCurrentTime (time : Q)
| TokenStarted
| TokenCompleted (reason : string)
| OnResource (n : string) (o : Resource.op).

Definition step (o : op) (c : t) : t :=
  match o with
  | AddResource n quantity cost => addResource n quantity cost c
  | SetCurrentTime time => setCurrentTime time c
  | TokenStarted => tokenStarted c
  | TokenCompleted reason => tokenCompleted reason c
  | OnResource n ro =>
      match getResource n c with
      | Some r => setResource n (Resource.step ro r) c
      | None => c
      end
  end.

Definition run (ops : list op) (c : t) : t :=
  fold_left (fun acc o => step o acc) ops c.

Definition isTokenCompleted (o : op) : bool :=
  match o with
  | TokenCompleted _ => true
  | _ => false
  end.

End ProcessContext.

(** ** BPMNElement.h, Activity.h, Gateway.h: the element graph *)

(** A [BPMNElement*]: the position of the element in [Process::elements]. *)
Definition NodeId := nat.

(** [struct Rule] of [ExclusiveGateway]. *)
Module Rule.

Record t (W : Type) := mk {
  name : string;
  condition : Token.t -> W -> bool * W;
  nextNode : NodeId
}.
Arguments mk {W} _ _ _.
Arguments name {W} _.
Arguments condition {W} _ _ _.
Arguments nextNode {W} _.

End Rule.

(** The derived classes of [BPMNElement] with their private members. *)
Inductive Kind (W : Type) :=
| Event (isStart : bool)
| Activity (processingTime : Q) (resourceName : string)
| ExclusiveGateway (rules : list (Rule.t W)) (defaultFlow : option NodeId)
| ParallelGateway (isDivergence : bool).
Arguments Event {W} _.
Arguments Activity {W} _ _.
Arguments ExclusiveGateway {W} _ _.
Arguments ParallelGateway {W} _.

Module BPMNElement.

Record t (W : Type) := mk {
  id : string;
  name : string;
  outgoing : list NodeId;
  kind : Kind W
}.
Arguments mk {W} _ _ _ _.
Arguments id {W} _.
Arguments name {W} _.
Arguments outgoing {W} _.
Arguments kind {W} _.

(** [outgoing.push_back(next);] *)
Definition connectTo {W} (next : NodeId) (e : t W) : t W :=
  mk (id e) (name e) (outgoing e ++ [next]) (kind e).

Definition getType {W} (e : t W) : string :=
  match kind e with
  | Event true => "StartEvent"
  | Event false => "EndEvent"
  | Activity _ _ => "Activity"
  | ExclusiveGateway _ _ => "ExclusiveGateway"
  | ParallelGateway _ => "ParallelGateway"
  end.

(** [ExclusiveGateway::addPath]: a null condition or a null target leaves
    the gateway as it is (the source prints a line on [std::cerr] and
    returns); otherwise the rule goes to the back of [rules] and the
    target to the back of [outgoing].  On an element of another class the
    member does not exist. *)
Definition addPath {W} (ruleName : string) (target : option NodeId)
    (condition : option (Token.t -> W -> bool * W)) (e : t W) : t W :=
  match kind e, condition, target with
  | ExclusiveGateway rules dflt, Some cond, Some tg =>
      connectTo tg
        (mk (id e) (name e) (outgoing e)
            (ExclusiveGateway (rules ++ [Rule.mk ruleName cond tg]) dflt))
  | _, _, _ => e
  end.

(** [ExclusiveGateway::setDefaultPath] *)
Definition setDefaultPath {W} (target : option NodeId) (e : t W) : t W :=
  match kind e, target with
  | ExclusiveGateway rules _, Some tg =>
      connectTo tg
        (mk (id e) (name e) (outgoing e) (ExclusiveGateway rules (Some tg)))
  | _, _ => e
  end.

End BPMNElement.

(** ** Console output *)

(** One constructor per output statement of the [execute] bodies and of
    [Process::simulate], carrying the values streamed by that statement. *)
Inductive LogEvent :=
| LogStart (candidate : Z) (time : Q)
    (* cout: [>>] Candidato #<id> inicia proceso en t=<currentTime> *)
| LogEnd (candidate : Z) (reason : string) (cycle : Q)
    (* cout: [END] Candidato #<id> termina: <name> (ciclo: <cycle> min) *)
| LogActivity (activity : string) (candidate : Z) (minutes : Q)
    (resource : string)
    (* cout: -> [<name>] Candidato #<id> procesado en <min> min por <res> *)
| ErrResource (resource : string)
    (* cerr: ERROR: Recurso '<resourceName>' no encontrado *)
| LogXor (gateway rule : string)
    (* cout: [XOR] Gateway [<name>]: <rule.name> *)
| LogXorDefault (gateway : string)
    (* cout: [XOR] Gateway [<name>]: (Default Path) *)
| ErrNoExit (candidate : Z) (gateway : string)
    (* cerr: [ERROR] Token #<id> sin salida valida en Gateway '<name>'
             and the line with the setDefaultPath() suggestion *)
| LogSplit (gateway : string) (branches : nat)
    (* cout: [AND+] Gateway Paralelo [<name>]: Dividiendo en <n> ramas *)
| LogJoin (gateway : string)
    (* cout: [AND] Gateway Paralelo [<name>]: Sincronizando ramas *)
| LogCandidate (candidate : Z).
    (* cout: --- Candidato #<id> --- *)

Definition isStderr (e : LogEvent) : bool :=
  match e with
  | ErrResource _ | ErrNoExit _ _ => true
  | _ => false
  end.

(** ** What an [execute] call reads and writes *)

Module State.

Record t (W : Type) := mk {
  token : Token.t;
  context : ProcessContext.t;
  out : list LogEvent;
  world : W
}.
Arguments mk {W} _ _ _ _.
Arguments token {W} _.
Arguments context {W} _.
Arguments out {W} _.
Arguments world {W} _.

Definition setToken {W} (tk : Token.t) (s : t W) : t W :=
  mk tk (context s) (out s) (world s).
Definition setContext {W} (c : ProcessContext.t) (s : t W) : t W :=
  mk (token s) c (out s) (world s).
Definition setWorld {W} (w : W) (s : t W) : t W :=
  mk (token s) (context s) (out s) w.
Definition print {W} (e : LogEvent) (s : t W) : t W :=
  mk (token s) (context s) (out s ++ [e]) (world s).

(** What the caller of a [void execute(Token&, ProcessContext&)] holds
    when the call returns: the two objects it passed by reference. *)
Definition callerView {W} (s : t W) : Token.t * ProcessContext.t :=
  (token s, context s).

End State.

(** ** The [execute] overrides

    Each body takes [exec], the virtual call [next->execute(token, context)],
    as an argument; [execute] below ties the knot. *)

Section Execute.

Context {W : Type}.

Abbreviation state := (State.t W).
Abbreviation element := (BPMNElement.t W).

Variable exec : NodeId -> state -> option state.

(** [Event::execute] *)
Definition Event_execute (e : element) (isStart : bool) (st : state)
    : option state :=
  if isStart then
    let st1 := State.setContext
                 (ProcessContext.tokenStarted (State.context st)) st in
    let st2 := State.print
                 (LogStart (Token.getCandidateId (State.token st1))
                           (Token.getCurrentTime (State.token st1))) st1 in
    match BPMNElement.outgoing e with
    | next :: _ => exec next st2
    | [] => Some st2
    end
  else
    let st1 := State.setContext
                 (ProcessContext.tokenCompleted (BPMNElement.name e)
                    (State.context st)) st in
    let st2 := State.setToken
                 (Token.complete (BPMNElement.name e) (State.token st1))
                 st1 in
    Some (State.print
            (LogEnd (Token.getCandidateId (State.token st2))
                    (BPMNElement.name e)
                    (Token.getCycleTime (State.token st2))) st2).

(** [while (!resource->isAvailable()) { break; }]: the condition is read
    once and the loop is left at once, whatever it was. *)
Definition waitForResource (r : Resource.t) : Resource.t :=
  if negb (Resource.isAvailable r) then r else r.

(** [Activity::execute] *)
Definition Activity_execute (e : element) (processingTime : Q)
    (resourceName : string) (st : state) : option state :=
  match ProcessContext.getResource resourceName (State.context st) with
  | None => Some (State.print (ErrResource resourceName) st)
  | Some resource =>
      let r0 := waitForResource resource in
      let r1 := Resource.acquire r0 in
      let tk := Token.advanceTime processingTime (State.token st) in
      let r2 := Resource.addUsage processingTime r1 in
      let r3 := Resource.release r2 in
      let st1 :=
        State.mk tk
          (ProcessContext.setResource resourceName r3 (State.context st))
          (State.out st ++
             [LogActivity (BPMNElement.name e) (Token.getCandidateId tk)
                          processingTime resourceName])
          (State.world st) in
      match BPMNElement.outgoing e with
      | next :: _ => exec next st1
      | [] => Some st1
      end
  end.

(** [ExclusiveGateway::execute]: the [for] loop over [rules], then the
    code after the loop. *)
Fixpoint ExclusiveGateway_execute (e : element) (rules : list (Rule.t W))
    (defaultFlow : option NodeId) (st : state) : option state :=
  match rules with
  | rule :: rest =>
      let '(b, w) := Rule.condition rule (State.token st) (State.world st) in
      let st1 := State.setWorld w st in
      if b then
        exec (Rule.nextNode rule)
             (State.print (LogXor (BPMNElement.name e) (Rule.name rule)) st1)
      else ExclusiveGateway_execute e rest defaultFlow st1
  | [] =>
      match defaultFlow with
      | Some d => exec d (State.print (LogXorDefault (BPMNElement.name e)) st)
      | None =>
          Some (State.print
                  (ErrNoExit (Token.getCandidateId (State.token st))
                             (BPMNElement.name e)) st)
      end
  end.

(** [for (auto* next : outgoing) next->execute(token, context);] *)
Fixpoint forEachOutgoing (nodes : list NodeId) (st : state) : option state :=
  match nodes with
  | [] => Some st
  | next :: rest =>
      match exec next st with
      | Some st1 => forEachOutgoing rest st1
      | None => None
      end
  end.

(** [ParallelGateway::execute] *)
Definition ParallelGateway_execute (e : element) (isDivergence : bool)
    (st : state) : option state :=
  if isDivergence then
    forEachOutgoing (BPMNElement.outgoing e)
      (State.print
         (LogSplit (BPMNElement.name e) (length (BPMNElement.outgoing e)))
         st)
  else
    let st1 := State.print (LogJoin (BPMNElement.name e)) st in
    match BPMNElement.outgoing e with
    | next :: _ => exec next st1
    | [] => Some st1
    end.

(** Dynamic dispatch on the class of the element. *)
Definition dispatch (e : element) (st : state) : option state :=
  match BPMNElement.kind e with
  | Event isStart => Event_execute e isStart st
  | Activity processingTime resourceName =>
      Activity_execute e processingTime resourceName st
  | ExclusiveGateway rules defaultFlow =>
      ExclusiveGateway_execute e rules defaultFlow st
  | ParallelGateway isDivergence =>
      ParallelGateway_execute e isDivergence st
  end.

End Execute.

(** [node->execute(token, context)], with [fuel] bounding the depth of the
    nested calls. *)
Fixpoint execute {W} (elements : list (BPMNElement.t W)) (fuel : nat)
    (node : NodeId) (st : State.t W) : option (State.t W) :=
  match fuel with
  | O => None
  | S fuel' =>
      match elements !! node with
      | Some e => dispatch (execute elements fuel') e st
      | None => None
      end
  end.

(** The conditions of [rules] called one after the other on [tk], each on
    the state left by the one before: the answers and the final state. *)
Fixpoint callConditions {W} (rules : list (Rule.t W)) (tk : Token.t) (w : W)
    : list bool * W :=
  match rules with
  | [] => ([], w)
  | rule :: rest =>
      let '(b, w1) := Rule.condition rule tk w in
      let '(bs, w2) := callConditions rest tk w1 in
      (b :: bs, w2)
  end.

Definition allFalse (bs : list bool) : bool := forallb negb bs.

(** ** Process.h *)

Module Process.

Record t (W : Type) := mk {
  name : string;
  elements : list (BPMNElement.t W);
  startElement : option NodeId;
  context : ProcessContext.t;
  tokens : list Token.t
}.
Arguments mk {W} _ _ _ _ _.
Arguments name {W} _.
Arguments elements {W} _.
Arguments startElement {W} _.
Arguments context {W} _.
Arguments tokens {W} _.

(** [Process(const std::string& name)] *)
Definition new {W} (n : string) : t W :=
  mk n [] None ProcessContext.new [].

(** [elements.push_back(std::move(x)); return ptr;] *)
Definition push {W} (e : BPMNElement.t W) (p : t W) : NodeId * t W :=
  (length (elements p),
   mk (name p) (elements p ++ [e]) (startElement p) (context p) (tokens p)).

Definition addStartEvent {W} (id n : string) (p : t W) : NodeId * t W :=
  let '(ptr, p1) := push (BPMNElement.mk id n [] (Event true)) p in
  (ptr,
   mk (name p1) (elements p1)
      (match startElement p1 with
       | Some s => Some s
       | None => Some ptr
       end)
      (context p1) (tokens p1)).

Definition addEndEvent {W} (id n : string) (p : t W) : NodeId * t W :=
  push (BPMNElement.mk id n [] (Event false)) p.

Definition addActivity {W} (id n : string) (time : Q) (resource : string)
    (p : t W) : NodeId * t W :=
  push (BPMNElement.mk id n [] (Activity time resource)) p.

Definition addExclusiveGateway {W} (id n : string) (p : t W) : NodeId * t W :=
  push (BPMNElement.mk id n [] (ExclusiveGateway [] None)) p.

Definition addParallelGateway {W} (id n : string) (diverge : bool) (p : t W)
    : NodeId * t W :=
  push (BPMNElement.mk id n [] (ParallelGateway diverge)) p.

(** A member call [ptr->f(...)] on an element owned by the process. *)
Definition onElement {W} (ptr : NodeId)
    (f : BPMNElement.t W -> BPMNElement.t W) (p : t W) : t W :=
  mk (name p) (alter f ptr (elements p)) (startElement p) (context p)
     (tokens p).

Definition addResource {W} (n : string) (quantity : Z) (costPerHour : Q)
    (p : t W) : t W :=
  mk (name p) (elements p) (startElement p)
     (ProcessContext.addResource n quantity costPerHour (context p))
     (tokens p).

(** [if (startElement) startElement->execute(token, context);] *)
Definition executeToken {W} (fuel : nat) (elems : list (BPMNElement.t W))
    (start : option NodeId) (st : State.t W) : option (State.t W) :=
  match start with
  | Some s => execute elems fuel s st
  | None => Some st
  end.

(** First loop of [simulate]:
    [tokens.emplace_back(i + 1, currentTime); currentTime += arrivalInterval;] *)
Fixpoint createTokens (count : nat) (i : Z) (currentTime arrivalInterval : Q)
    : list Token.t :=
  match count with
  | O => []
  | S k =>
      Token.new (i + 1) currentTime
        :: createTokens k (i + 1) (currentTime + arrivalInterval)%Q
             arrivalInterval
  end.

(** Second loop of [simulate]: each token is driven from the start element
    until its [executeToken] call returns, then the next one. *)
Fixpoint executeTokens {W} (fuel : nat) (elems : list (BPMNElement.t W))
    (start : option NodeId) (todo : list Token.t)
    (c : ProcessContext.t) (o : list LogEvent) (w : W)
    : option (list Token.t * ProcessContext.t * list LogEvent * W) :=
  match todo with
  | [] => Some ([], c, o, w)
  | tk :: rest =>
      let st := State.mk tk c (o ++ [LogCandidate (Token.getCandidateId tk)]) w in
      match executeToken fuel elems start st with
      | None => None
      | Some st1 =>
          match executeTokens fuel elems start rest
                  (State.context st1) (State.out st1) (State.world st1) with
          | None => None
          | Some (done, c2, o2, w2) => Some (State.token st1 :: done, c2, o2, w2)
          end
      end
  end.

(** [simulate(numCandidates, arrivalInterval)].  The banner and the closing
    reports only print figures derived from the final state and are not
    part of the result. *)
Definition simulate {W} (fuel : nat) (numCandidates : Z) (arrivalInterval : Q)
    (p : t W) (o : list LogEvent) (w : W)
    : option (t W * list LogEvent * W) :=
  let created := createTokens (Z.to_nat numCandidates) 0 0%Q arrivalInterval in
  match executeTokens fuel (elements p) (startElement p) created
          (context p) o w with
  | None => None
  | Some (done, c, o1, w1) =>
      Some (mk (name p) (elements p) (startElement p) c done, o1, w1)
  end.

Definition getContext {W} (p : t W) : ProcessContext.t := context p.
Definition getTokens {W} (p : t W) : list Token.t := tokens p.

End Process.

(** ** Processes used in the statements below *)

(** A condition that records its own call in a call log and answers [b]:
    the lambda [[&calls, b](const Token&) { calls.push_back(nm); return b; }]. *)
Definition probe (nm : string) (b : bool)
    : Token.t -> list string -> bool * list string :=
  fun _ calls => (b, (calls ++ [nm])%list).

(** start -> XOR gateway with rules r1 (false), r2 (true), r3 (true), each to
    an end event of its own, and a default path to a fourth end event. *)
Definition xorProcess : Process.t (list string) :=
  let p := Process.new "xor" in
  let '(start, p) := Process.addStartEvent "start" "Inicio" p in
  let '(gw, p) := Process.addExclusiveGateway "gw" "Decision" p in
  let '(e1, p) := Process.addEndEvent "e1" "Destino r1" p in
  let '(e2, p) := Process.addEndEvent "e2" "Destino r2" p in
  let '(e3, p) := Process.addEndEvent "e3" "Destino r3" p in
  let '(ed, p) := Process.addEndEvent "ed" "Destino por defecto" p in
  let p := Process.onElement start (BPMNElement.connectTo gw) p in
  let p := Process.onElement gw
             (BPMNElement.addPath "r1" (Some e1) (Some (probe "r1" false))) p in
  let p := Process.onElement gw
             (BPMNElement.addPath "r2" (Some e2) (Some (probe "r2" true))) p in
  let p := Process.onElement gw
             (BPMNElement.addPath "r3" (Some e3) (Some (probe "r3" true))) p in
  Process.onElement gw (BPMNElement.setDefaultPath (Some ed)) p.

(** start -> XOR gateway with one rule that never holds and no default. *)
Definition deadEndProcess : Process.t unit :=
  let p := Process.new "dead end" in
  let '(start, p) := Process.addStartEvent "start" "Inicio" p in
  let '(gw, p) := Process.addExclusiveGateway "gw" "Decision" p in
  let '(e1, p) := Process.addEndEvent "e1" "Fin" p in
  let p := Process.onElement start (BPMNElement.connectTo gw) p in
  Process.onElement gw
    (BPMNElement.addPath "nunca" (Some e1) (Some (fun _ w => (false, w)))) p.

(** A start event that is connected to nothing. *)
Definition startOnlyProcess : Process.t unit :=
  snd (Process.addStartEvent "start" "Inicio" (Process.new "start only")).

(** start -> activity on the resource "Fantasma" -> end; the resource is
    never registered. *)
Definition ghostProcess : Process.t unit :=
  let p := Process.new "ghost" in
  let '(start, p) := Process.addStartEvent "start" "Inicio" p in
  let '(act, p) := Process.addActivity "act" "Tarea" 10 "Fantasma" p in
  let '(e1, p) := Process.addEndEvent "e1" "Fin" p in
  let p := Process.onElement start (BPMNElement.connectTo act) p in
  Process.onElement act (BPMNElement.connectTo e1) p.

(** Resource "A" with the given capacity; start -> 10-minute activity on
    "A" -> end. *)
Definition serialProcess (capacity : Z) : Process.t unit :=
  let p := Process.addResource "A" capacity 60 (Process.new "serial") in
  let '(start, p) := Process.addStartEvent "start" "Inicio" p in
  let '(act, p) := Process.addActivity "act" "Tarea" 10 "A" p in
  let '(e1, p) := Process.addEndEvent "e1" "Fin" p in
  let p := Process.onElement start (BPMNElement.connectTo act) p in
  Process.onElement act (BPMNElement.connectTo e1) p.

(** The context of [serialProcess 1] after one more holder has taken "A"
    through [getContext().getResource("A")->acquire()]. *)
Definition exhaustedContext : ProcessContext.t :=
  ProcessContext.step (ProcessContext.OnResource "A" Resource.Acquire)
    (Process.context (serialProcess 1)).

(** start -> fork -> one activity per duration in [durations], each on
    resource "A" and each connected to the join -> end.
    Positions: 0 start, 1 fork, 2 join, 3 end, 4.. the branch activities. *)
Definition forkJoinElements (durations : list Q) : list (BPMNElement.t unit) :=
  [ BPMNElement.mk "start" "Inicio" [1%nat] (Event true);
    BPMNElement.mk "fork" "Dividir"
      (seq 4 (length durations)) (ParallelGateway true);
    BPMNElement.mk "join" "Unir" [3%nat] (ParallelGateway false);
    BPMNElement.mk "end" "Fin" [] (Event false) ]
  ++ ((fun d => BPMNElement.mk "branch" "Rama" [2%nat] (Activity d "A"))
        <$> durations).

Definition forkJoinProcess (durations : list Q) : Process.t unit :=
  Process.mk "fork/join" (forkJoinElements durations) (Some 0%nat)
    (ProcessContext.addResource "A" 5 60 ProcessContext.new) [].

(** How often the join gateway [gw] let a token through. *)
Definition joinPasses (gw : string) (o : list LogEvent) : nat :=
  length (List.filter (fun e => match e with
                           | LogJoin g => bool_decide (g = gw)
                           | _ => false
                           end) o).

(** How often an end event was reached. *)
Definition endsReached (o : list LogEvent) : nat :=
  length (List.filter (fun e => match e with
                           | LogEnd _ _ _ => true
                           | _ => false
                           end) o).

Definition initial {W} (tk : Token.t) (c : ProcessContext.t) (w : W)
    : State.t W :=
  State.mk tk c [] w.

(** [advanceTime] called once per entry of [deltas], in order. *)
Definition advanceAll (deltas : list Q) (tk : Token.t) : Token.t :=
  fold_left (fun acc d => Token.advanceTime d acc) deltas tk.

(** What the branches of [forkJoinElements durations] print for the token
    [candidate], started at [start], when the fork is reached at [clock]:
    per branch the activity, the join, and the end event with the cycle
    time at that moment. *)
Fixpoint branchLog (candidate : Z) (start clock : Q) (durations : list Q)
    : list LogEvent :=
  match durations with
  | [] => []
  | d :: rest =>
      [LogActivity "Rama" candidate d "A"; LogJoin "Unir";
       LogEnd candidate "Fin" (clock + d - start)%Q]
      ++ branchLog candidate start (clock + d)%Q rest
  end.

(** What one branch does to the state: the activity, then the join, which
    forwards the token at once, then the end event. *)
Record branchStep (d : Q) (st s : State.t unit) : Prop := {
  bs_clock :
    Token.currentTime (State.token s)
    = (Token.currentTime (State.token st) + d)%Q;
  bs_id :
    Token.candidateId (State.token s) = Token.candidateId (State.token st);
  bs_start :
    Token.startTime (State.token s) = Token.startTime (State.token st);
  bs_out :
    State.out s
    = State.out st
      ++ [LogActivity "Rama" (Token.candidateId (State.token st)) d "A";
          LogJoin "Unir";
          LogEnd (Token.candidateId (State.token st)) "Fin"
            (Token.currentTime (State.token st) + d
             - Token.startTime (State.token st))%Q];
  bs_completed :
    ProcessContext.tokensCompleted (State.context s)
    = ProcessContext.tokensCompleted (State.context st) + 1;
  bs_resource :
    is_Some (ProcessContext.getResource "A" (State.context s))
}.

(** [exec] keeps the property [P] of contexts: whenever a call returns,
    [P] of the context before gives [P] of the context after. *)
Definition keepsContext {W} (P : ProcessContext.t -> Prop)
    (exec : NodeId -> State.t W -> option (State.t W)) : Prop :=
  forall n st s,
    exec n st = Some s -> P (State.context st) -> P (State.context s).

(** ** MetricsExporter.h: the figures of [exportSummary]

    The files themselves are outside the model; what is embedded is the
    loop that computes the figures written to the summary. *)

Module MetricsExporter.

Record Summary := mk {
  totalTokens : Z;
  completedTokens : Z;
  totalCycleTime : Q;
  minCycleTime : Q;
  maxCycleTime : Q
}.

(** The body of [for (const auto& token : tokens) { if (token.isCompleted()) ... }] *)
Definition visit (token : Token.t) (acc : Summary) : Summary :=
  if Token.isCompleted token then
    let cycleTime := Token.getCycleTime token in
    mk (totalTokens acc) (completedTokens acc + 1)
       (totalCycleTime acc + cycleTime)%Q
       (if Qlt_le_dec cycleTime (minCycleTime acc)
        then cycleTime else minCycleTime acc)
       (if Qlt_le_dec (maxCycleTime acc) cycleTime
        then cycleTime else maxCycleTime acc)
  else acc.

(** [totalTokens = tokens.size(), completedTokens = 0, totalCycleTime = 0.0,
     minCycleTime = 1e9, maxCycleTime = 0.0], then the loop. *)
Definition statistics (tokens : list Token.t) : Summary :=
  fold_left (fun acc token => visit token acc) tokens
    (mk (Z.of_nat (length tokens)) 0 0 1000000000 0).

(** [completedTokens > 0 ? totalCycleTime / completedTokens : 0.0] *)
Definition avgCycleTime (s : Summary) : Q :=
  if 0 <? completedTokens s
  then (totalCycleTime s / inject_Z (completedTokens s))%Q
  else 0%Q.


End MetricsExporter.

(** The average of the closing report of [Process::simulate]: the loop over
    the completed tokens, and the figure printed under
    [if (completedCount > 0)]; nothing is printed otherwise. *)
Definition closingAverage (tokens : list Token.t) : option Q :=
  let '(totalCycleTime, completedCount) :=
    fold_left
      (fun '(total, count) token =>
         if Token.isCompleted token
         then ((total + Token.getCycleTime token)%Q, count + 1)
         else (total, count))
      tokens (0%Q, 0) in
  if 0 <? completedCount
  then Some (totalCycleTime / inject_Z completedCount)%Q
  else None.

(** The cycle times of the completed tokens, in order. *)
Definition completedCycleTimes (tokens : list Token.t) : list Q :=
  Token.getCycleTime <$> List.filter Token.isCompleted tokens.

(** ** Further definitions used in the statements below *)

(** The minutes passed to [addUsage] in a sequence of calls, added up. *)
Fixpoint usageMinutes (ops : list Resource.op) : Q :=
  match ops with
  | [] => 0
  | Resource.AddUsage minutes :: rest => (minutes + usageMinutes rest)%Q
  | _ :: rest => usageMinutes rest
  end.

(** How many calls of a sequence on a context are [tokenStarted()],
    [tokenCompleted(...)], and [tokenCompleted(reason)]. *)
Definition startedCalls (ops : list ProcessContext.op) : nat :=
  length (List.filter (fun o => match o with
                                | ProcessContext.TokenStarted => true
                                | _ => false
                                end) ops).

Definition completedCalls (ops : list ProcessContext.op) : nat :=
  length (List.filter ProcessContext.isTokenCompleted ops).

Definition completedWith (reason : string) (ops : list ProcessContext.op) : nat :=
  length (List.filter (fun o => match o with
                                | ProcessContext.TokenCompleted r =>
                                    bool_decide (r = reason)
                                | _ => false
                                end) ops).

(** The two configuration members of [ExclusiveGateway], as data, with
    the null pointers and the empty [std::function] a caller may pass. *)
Inductive GatewayCall (W : Type) :=
| CallAddPath (ruleName : string) (target : option NodeId)
    (condition : option (Token.t -> W -> bool * W))
| CallSetDefaultPath (target : option NodeId).
Arguments CallAddPath {W} _ _ _.
Arguments CallSetDefaultPath {W} _.

Definition configure {W} (call : GatewayCall W) (e : BPMNElement.t W)
    : BPMNElement.t W :=
  match call with
  | CallAddPath ruleName target condition =>
      BPMNElement.addPath ruleName target condition e
  | CallSetDefaultPath target => BPMNElement.setDefaultPath target e
  end.

Definition configureAll {W} (calls : list (GatewayCall W))
    (e : BPMNElement.t W) : BPMNElement.t W :=
  fold_left (fun acc call => configure call acc) calls e.

(** The rules of the [addPath] calls that pass both null checks, each with
    the name, the condition and the target of its call, in call order. *)
Fixpoint acceptedRules {W} (calls : list (GatewayCall W))
    : list (Rule.t W) :=
  match calls with
  | [] => []
  | CallAddPath ruleName (Some tg) (Some cond) :: rest =>
      Rule.mk ruleName cond tg :: acceptedRules rest
  | _ :: rest => acceptedRules rest
  end.

(** The targets of all calls that pass their null checks, in call order. *)
Fixpoint acceptedEdges {W} (calls : list (GatewayCall W)) : list NodeId :=
  match calls with
  | [] => []
  | CallAddPath _ (Some tg) (Some _) :: rest => tg :: acceptedEdges rest
  | CallSetDefaultPath (Some tg) :: rest => tg :: acceptedEdges rest
  | _ :: rest => acceptedEdges rest
  end.

(** The target of the last [setDefaultPath] call with a non-null target,
    [dflt] when there is none. *)
Fixpoint lastDefault {W} (dflt : option NodeId) (calls : list (GatewayCall W))
    : option NodeId :=
  match calls with
  | [] => dflt
  | CallSetDefaultPath (Some tg) :: rest => lastDefault (Some tg) rest
  | _ :: rest => lastDefault dflt rest
  end.

(** The elements on which one more [connectTo] changes no run: an end
    event and an exclusive gateway never read [outgoing]; a start event, an
    activity and a converging gateway read its first entry only. *)
Definition ignoresLaterEdges {W} (e : BPMNElement.t W) : bool :=
  match BPMNElement.kind e with
  | Event false => true
  | ExclusiveGateway _ _ => true
  | ParallelGateway true => false
  | _ => match BPMNElement.outgoing e with
         | [] => false
         | _ :: _ => true
         end
  end.

(** The lines that go with no change of the token or the context. *)
Definition plainLine (e : LogEvent) : bool :=
  match e with
  | ErrResource _ | LogXor _ _ | LogXorDefault _ | ErrNoExit _ _
  | LogSplit _ _ | LogJoin _ => true
  | _ => false
  end.

(** How often a start event was passed. *)
Definition startsLogged (o : list LogEvent) : nat :=
  length (List.filter (fun e => match e with
                                | LogStart _ _ => true
                                | _ => false
                                end) o).

(** The minutes of all activity lines, added up. *)
Fixpoint loggedMinutes (o : list LogEvent) : Q :=
  match o with
  | [] => 0
  | LogActivity _ _ minutes _ :: rest => (minutes + loggedMinutes rest)%Q
  | _ :: rest => loggedMinutes rest
  end.

(** The same names are registered in [c] and [c'], each with the same
    [name], capacity and hourly rate. *)
Definition sameRegistry (c c' : ProcessContext.t) : Prop :=
  forall n,
    match ProcessContext.getResource n c, ProcessContext.getResource n c' with
    | Some r, Some r' =>
        Resource.name r' = Resource.name r
        /\ Resource.totalAvailable r' = Resource.totalAvailable r
        /\ Resource.costPerHour r' = Resource.costPerHour r
    | None, None => True
    | _, _ => False
    end.

(** No registered resource is held. *)
Definition allIdle (c : ProcessContext.t) : Prop :=
  map_Forall (fun _ r => Resource.currentlyUsed r = 0)
    (ProcessContext.resources c).


(** The calls that build a process, as data: the five [add...] members of
    [Process], [addResource], and the member calls made on the pointers
    they return ([connectTo], [addPath], [setDefaultPath]). *)
Inductive BuildCall (W : Type) :=
| BuildStartEvent (id n : string)
| BuildEndEvent (id n : string)
| BuildActivity (id n : string) (time : Q) (resource : string)
| BuildExclusiveGateway (id n : string)
| BuildParallelGateway (id n : string) (diverge : bool)
| BuildResource (n : string) (quantity : Z) (costPerHour : Q)
| BuildConnect (from to : NodeId)
| BuildConfigure (gateway : NodeId) (call : GatewayCall W).
Arguments BuildStartEvent {W} _ _.
Arguments BuildEndEvent {W} _ _.
Arguments BuildActivity {W} _ _ _ _.
Arguments BuildExclusiveGateway {W} _ _.
Arguments BuildParallelGateway {W} _ _ _.
Arguments BuildResource {W} _ _ _.
Arguments BuildConnect {W} _ _.
Arguments BuildConfigure {W} _ _.

Definition build {W} (call : BuildCall W) (p : Process.t W) : Process.t W :=
  match call with
  | BuildStartEvent id n => snd (Process.addStartEvent id n p)
  | BuildEndEvent id n => snd (Process.addEndEvent id n p)
  | BuildActivity id n time resource =>
      snd (Process.addActivity id n time resource p)
  | BuildExclusiveGateway id n => snd (Process.addExclusiveGateway id n p)
  | BuildParallelGateway id n diverge =>
      snd (Process.addParallelGateway id n diverge p)
  | BuildResource n quantity costPerHour =>
      Process.addResource n quantity costPerHour p
  | BuildConnect from to => Process.onElement from (BPMNElement.connectTo to) p
  | BuildConfigure gateway call => Process.onElement gateway (configure call) p
  end.

Definition buildAll {W} (calls : list (BuildCall W)) (p : Process.t W)
    : Process.t W :=
  fold_left (fun acc call => build call acc) calls p.

Definition isStartEvent {W} (e : BPMNElement.t W) : bool :=
  match BPMNElement.kind e with
  | Event true => true
  | _ => false
  end.

(** [startElement] is null and the process has no start event, or it
    points at the first start event of [elements]. *)
Definition startElementOk {W} (p : Process.t W) : Prop :=
  match Process.startElement p with
  | Some s =>
      (exists e, Process.elements p !! s = Some e /\ isStartEvent e = true)
      /\ (forall i e, (i < s)%nat -> Process.elements p !! i = Some e ->
                      isStartEvent e = false)
  | None =>
      forall i e, Process.elements p !! i = Some e -> isStartEvent e = false
  end.

(** A straight line: start -> one activity per duration, each on resource
    "A" -> end.  [chainFrom position durations] are the elements from
    [position] on: the activity at [position] leads to [position + 1]. *)
Fixpoint chainFrom (position : nat) (durations : list Q)
    : list (BPMNElement.t unit) :=
  match durations with
  | [] => [BPMNElement.mk "end" "Fin" [] (Event false)]
  | d :: rest =>
      BPMNElement.mk "step" "Paso" [S position] (Activity d "A")
        :: chainFrom (S position) rest
  end.

Definition chainElements (durations : list Q) : list (BPMNElement.t unit) :=
  BPMNElement.mk "start" "Inicio" [1%nat] (Event true) :: chainFrom 1 durations.

Definition chainProcess (capacity : Z) (durations : list Q) : Process.t unit :=
  Process.mk "chain" (chainElements durations) (Some 0%nat)
    (ProcessContext.addResource "A" capacity 60 ProcessContext.new) [].

Definition totalMinutes (durations : list Q) : Q :=
  fold_right Qplus 0%Q durations.

(** A rework loop: start -> review (5 minutes on "A") -> exclusive gateway
    whose only rule always holds and leads back to the review. *)
Definition reworkElements : list (BPMNElement.t unit) :=
  [ BPMNElement.mk "start" "Inicio" [1%nat] (Event true);
    BPMNElement.mk "review" "Revisar" [2%nat] (Activity 5 "A");
    BPMNElement.mk "gw" "Otra vez"  [1%nat]
      (ExclusiveGateway
         [Rule.mk "siempre" (fun _ w => (true, w)) 1%nat] None) ].

(** * Properties *)

(** ** Resource: the capacity invariant *)

Lemma acquire_inv r : Resource.inv r -> Resource.inv (Resource.acquire r).
Proof.
  unfold Resource.inv, Resource.acquire, Resource.isAvailable.
  destruct (Z.ltb_spec (Resource.currentlyUsed r) (Resource.totalAvailable r));
    simpl; lia.
Qed.

Lemma release_inv r : Resource.inv r -> Resource.inv (Resource.release r).
Proof.
  unfold Resource.inv, Resource.release.
  destruct (Z.ltb_spec 0 (Resource.currentlyUsed r)); simpl; lia.
Qed.

Lemma addUsage_inv m r : Resource.inv r -> Resource.inv (Resource.addUsage m r).
Proof. unfold Resource.inv. simpl. tauto. Qed.

Lemma step_inv o r : Resource.inv r -> Resource.inv (Resource.step o r).
Proof.
  destruct o; simpl; auto using acquire_inv, release_inv, addUsage_inv.
Qed.

Lemma step_capacity o r :
  Resource.totalAvailable (Resource.step o r) = Resource.totalAvailable r.
Proof.
  destruct o; simpl; try reflexivity.
  - unfold Resource.acquire. destruct (Resource.isAvailable r); reflexivity.
  - unfold Resource.release.
    destruct (0 <? Resource.currentlyUsed r); reflexivity.
Qed.

Lemma states_inv ops : forall r,
  Resource.inv r -> Forall Resource.inv (Resource.states ops r).
Proof.
  induction ops as [|o ops IH]; intros r Hr; simpl.
  - constructor; [exact Hr | constructor].
  - constructor; [exact Hr | apply IH, step_inv, Hr].
Qed.

Lemma run_inv ops : forall r,
  Resource.inv r -> Resource.inv (Resource.run ops r).
Proof.
  unfold Resource.run.
  induction ops as [|o ops IH]; intros r Hr; simpl; [exact Hr|].
  apply IH, step_inv, Hr.
Qed.

(** C4. From [Resource(n, capacity, cost)] with [capacity >= 1], every
    state passed through by any sequence of [acquire], [release] and
    [addUsage] calls satisfies [0 <= currentlyUsed <= totalAvailable], the
    final state included.  A call of [acquire] on a state within the
    bounds never leaves [currentlyUsed] above the capacity, and [release]
    never leaves it below zero: at zero it changes nothing. *)
Theorem resource_capacity_invariant
    (n : string) (capacity : Z) (cost : Q) (ops : list Resource.op) :
  1 <= capacity ->
  Forall Resource.inv (Resource.states ops (Resource.new n capacity cost))
  /\ Resource.inv (Resource.run ops (Resource.new n capacity cost))
  /\ (forall r, Resource.inv r ->
        Resource.currentlyUsed (Resource.acquire r)
          <= Resource.totalAvailable (Resource.acquire r))
  /\ (forall r, Resource.inv r ->
        0 <= Resource.currentlyUsed (Resource.release r))
  /\ (forall r, Resource.currentlyUsed r = 0 -> Resource.release r = r).
Proof.
  intros Hcap.
  assert (H0 : Resource.inv (Resource.new n capacity cost)).
  { unfold Resource.inv. simpl. lia. }
  split; [apply states_inv, H0|].
  split; [apply run_inv, H0|].
  split; [intros r Hr; apply (acquire_inv r Hr)|].
  split; [intros r Hr; apply (release_inv r Hr)|].
  intros r Hr. unfold Resource.release. rewrite Hr. reflexivity.
Qed.

Lemma resource_capacity_invariant_witness :
  Forall Resource.inv
    (Resource.states
       [Resource.Acquire; Resource.Acquire; Resource.AddUsage 10;
        Resource.Release; Resource.Release; Resource.Release]
       (Resource.new "A" 1 60)).
Proof.
  apply (resource_capacity_invariant "A" 1 60
           [Resource.Acquire; Resource.Acquire; Resource.AddUsage 10;
            Resource.Release; Resource.Release; Resource.Release]).
  lia.
Defined.

(** ** Token: completion and the clock *)

(** C5 fails on the code: the second [complete] overwrites the end reason
    of the first. *)
Lemma complete_twice_overwrites :
  let tk := Token.complete "Contratado" (Token.new 1 0) in
  Token.endReason (Token.complete "Rechazado" tk) = "Rechazado"
  /\ Token.endReason (Token.complete "Rechazado" tk) <> Token.endReason tk
  /\ Token.complete "Rechazado" tk <> tk.
Proof.
  simpl. split; [reflexivity|]. split; intros H; discriminate H.
Qed.

(** C5, amended.  [complete(reason)] sets [completed] and stores [reason]
    on every call, completed or not: after [complete(r1); complete(r2)]
    the flag is true, the end reason is [r2], and the token is the one a
    single [complete(r2)] gives.  The second call changes nothing exactly
    when [r2 = r1]. *)
Theorem complete_last_reason_wins (tk : Token.t) (r1 r2 : string) :
  Token.complete r2 (Token.complete r1 tk) = Token.complete r2 tk
  /\ Token.completed (Token.complete r2 (Token.complete r1 tk)) = true
  /\ Token.endReason (Token.complete r2 (Token.complete r1 tk)) = r2
  /\ (Token.complete r2 (Token.complete r1 tk) = Token.complete r1 tk
      <-> r2 = r1).
Proof.
  repeat split; try reflexivity.
  - intros H. injection H. auto.
  - intros ->. reflexivity.
Qed.





(** C10.  [getData(key)] always returns: the stored value when the key is
    present, the empty string when it is absent; the token it leaves
    behind is the token it was called on, so no entry is inserted. *)
Theorem getData_total (key : string) (tk : Token.t) :
  exists v,
    Token.getData key tk = (v, tk)
    /\ (Token.data tk !! key = None -> v = "")
    /\ (forall x, Token.data tk !! key = Some x -> v = x)
    /\ Token.data (snd (Token.getData key tk)) !! key = Token.data tk !! key.
Proof.
  unfold Token.getData.
  destruct (Token.data tk !! key) as [x|] eqn:E; eexists;
    (split; [reflexivity|]); simpl; rewrite E; repeat split; congruence.
Qed.

Lemma getData_total_witness :
  let tk := Token.setData "score" "42" (Token.new 1 0) in
  Token.getData "salary" tk = ("", tk)
  /\ Token.getData "score" tk = ("42", tk).
Proof.
  intros tk. split.
  - destruct (getData_total "salary" tk) as (v & Heq & Hnone & _).
    rewrite Heq, (Hnone eq_refl). reflexivity.
  - destruct (getData_total "score" tk) as (v & Heq & _ & Hsome & _).
    rewrite Heq, (Hsome "42" eq_refl). reflexivity.
Defined.

(** ** ProcessContext: the end-reason histogram *)

Lemma histogram_add_comm (z1 z2 y : Z) :
  z1 + (z2 + y) = z2 + (z1 + y).
Proof. lia. Qed.

Lemma histogramTotal_tokenCompleted reason c :
  ProcessContext.histogramTotal (ProcessContext.tokenCompleted reason c)
  = ProcessContext.histogramTotal c + 1.
Proof.
  unfold ProcessContext.histogramTotal. simpl.
  destruct (ProcessContext.endReasons c !! reason) as [x|] eqn:E; simpl.
  - rewrite <- (insert_delete_eq (ProcessContext.endReasons c)).
    rewrite map_fold_insert_L;
      [|intros; apply histogram_add_comm|apply lookup_delete_eq].
    rewrite (map_fold_delete_L _ _ reason x (ProcessContext.endReasons c));
      [lia|intros; apply histogram_add_comm|exact E].
  - rewrite map_fold_insert_L;
      [lia|intros; apply histogram_add_comm|exact E].
Qed.

Lemma step_counters o c :
  match o with
  | ProcessContext.TokenCompleted reason =>
      ProcessContext.tokensCompleted (ProcessContext.step o c)
        = ProcessContext.tokensCompleted c + 1
      /\ ProcessContext.endReasons (ProcessContext.step o c)
         = <[reason := default 0 (ProcessContext.endReasons c !! reason) + 1]>
             (ProcessContext.endReasons c)
  | _ =>
      ProcessContext.tokensCompleted (ProcessContext.step o c)
        = ProcessContext.tokensCompleted c
      /\ ProcessContext.endReasons (ProcessContext.step o c)
         = ProcessContext.endReasons c
  end.
Proof.
  destruct o; simpl; try (split; reflexivity).
  unfold ProcessContext.getResource.
  destruct (ProcessContext.resources c !! n); split; reflexivity.
Qed.

Lemma step_histogram o c :
  ProcessContext.histogramTotal c = ProcessContext.tokensCompleted c ->
  ProcessContext.histogramTotal (ProcessContext.step o c)
  = ProcessContext.tokensCompleted (ProcessContext.step o c).
Proof.
  intros H. destruct o; simpl; try exact H.
  - rewrite histogramTotal_tokenCompleted. simpl. lia.
  - unfold ProcessContext.getResource.
    destruct (ProcessContext.resources c !! n); exact H.
Qed.

Lemma run_histogram ops : forall c,
  ProcessContext.histogramTotal c = ProcessContext.tokensCompleted c ->
  ProcessContext.histogramTotal (ProcessContext.run ops c)
  = ProcessContext.tokensCompleted (ProcessContext.run ops c).
Proof.
  unfold ProcessContext.run.
  induction ops as [|o ops IH]; intros c H; simpl; [exact H|].
  apply IH, step_histogram, H.
Qed.

(** C9.  After any sequence of calls on a freshly constructed
    [ProcessContext] ([tokenStarted], [tokenCompleted], and the other
    mutating members as well), the values of [endReasons] add up to
    [tokensCompleted].  [tokenCompleted(reason)] adds one to the counter
    and one to the entry of [reason] (created at 0 when missing) and leaves
    the other entries alone; every other call leaves both the counter and
    the histogram as they were. *)
Theorem histogram_sums_to_completed (ops : list ProcessContext.op) :
  ProcessContext.histogramTotal (ProcessContext.run ops ProcessContext.new)
  = ProcessContext.tokensCompleted (ProcessContext.run ops ProcessContext.new)
  /\ (forall c reason,
        ProcessContext.tokensCompleted (ProcessContext.tokenCompleted reason c)
          = ProcessContext.tokensCompleted c + 1
        /\ ProcessContext.endReasons (ProcessContext.tokenCompleted reason c)
             !! reason
           = Some (default 0 (ProcessContext.endReasons c !! reason) + 1)
        /\ (forall other, other <> reason ->
              ProcessContext.endReasons (ProcessContext.tokenCompleted reason c)
                !! other
              = ProcessContext.endReasons c !! other))
  /\ (forall c o,
        ProcessContext.isTokenCompleted o = false ->
        ProcessContext.tokensCompleted (ProcessContext.step o c)
          = ProcessContext.tokensCompleted c
        /\ ProcessContext.endReasons (ProcessContext.step o c)
           = ProcessContext.endReasons c).
Proof.
  split; [|split].
  - apply run_histogram. reflexivity.
  - intros c reason. simpl. split; [reflexivity|]. split.
    + apply lookup_insert_eq.
    + intros other Hne. apply lookup_insert_ne. congruence.
  - intros c o Ho. pose proof (step_counters o c) as H.
    destruct o; simpl in Ho; try discriminate Ho; exact H.
Qed.

Lemma histogram_sums_to_completed_witness :
  ProcessContext.histogramTotal
    (ProcessContext.run
       [ProcessContext.AddResource "A" 1 60; ProcessContext.TokenStarted;
        ProcessContext.TokenCompleted "Contratado";
        ProcessContext.OnResource "A" Resource.Acquire;
        ProcessContext.TokenCompleted "Rechazado";
        ProcessContext.TokenCompleted "Contratado"]
       ProcessContext.new) = 3.
Proof.
  rewrite (proj1 (histogram_sums_to_completed _)). reflexivity.
Defined.

(** ** The engine: one visit of a node *)

Lemma execute_visit {W} (elems : list (BPMNElement.t W)) fuel n e st :
  elems !! n = Some e ->
  execute elems (S fuel) n st = dispatch (execute elems fuel) e st.
Proof. intros H. simpl. rewrite H. reflexivity. Qed.

(** ** ExclusiveGateway *)

Section ExclusiveLoop.

Context {W : Type}.
Variable exec : NodeId -> State.t W -> option (State.t W).
Variable e : BPMNElement.t W.

Lemma loop_first_match pre : forall r post dflt st bs w1 w2,
  callConditions pre (State.token st) (State.world st) = (bs, w1) ->
  allFalse bs = true ->
  Rule.condition r (State.token st) w1 = (true, w2) ->
  ExclusiveGateway_execute exec e (pre ++ r :: post) dflt st
  = exec (Rule.nextNode r)
      (State.print (LogXor (BPMNElement.name e) (Rule.name r))
         (State.setWorld w2 st)).
Proof.
  induction pre as [|p pre IH]; intros r post dflt st bs w1 w2 Hpre Hbs Hr.
  - simpl in Hpre. injection Hpre as <- <-. simpl. rewrite Hr. reflexivity.
  - simpl in Hpre. simpl.
    destruct (Rule.condition p (State.token st) (State.world st)) as [b w].
    destruct (callConditions pre (State.token st) w) as [bs' w'] eqn:Hrest.
    injection Hpre as <- <-. simpl in Hbs.
    apply andb_prop in Hbs as [Hb Hbs]. destruct b; [discriminate Hb|].
    rewrite (IH r post dflt (State.setWorld w st) bs' w' w2); auto.
Qed.

Lemma loop_no_match rules : forall dflt st bs w1,
  callConditions rules (State.token st) (State.world st) = (bs, w1) ->
  allFalse bs = true ->
  ExclusiveGateway_execute exec e rules dflt st
  = match dflt with
    | Some d =>
        exec d (State.print (LogXorDefault (BPMNElement.name e))
                  (State.setWorld w1 st))
    | None =>
        Some (State.print
                (ErrNoExit (Token.candidateId (State.token st))
                           (BPMNElement.name e))
                (State.setWorld w1 st))
    end.
Proof.
  induction rules as [|p rules IH]; intros dflt st bs w1 Hall Hbs.
  - simpl in Hall. injection Hall as <- <-. simpl.
    destruct st; reflexivity.
  - simpl in Hall. simpl.
    destruct (Rule.condition p (State.token st) (State.world st)) as [b w].
    destruct (callConditions rules (State.token st) w) as [bs' w'] eqn:Hrest.
    injection Hall as <- <-. simpl in Hbs.
    apply andb_prop in Hbs as [Hb Hbs]. destruct b; [discriminate Hb|].
    rewrite (IH dflt (State.setWorld w st) bs' w'); auto.
Qed.

End ExclusiveLoop.

(** Every list of rules either has a first rule whose condition holds, all
    conditions before it having answered false, or none holds. *)
Lemma conditions_cases {W} (rules : list (Rule.t W)) : forall tk w,
  (exists pre r post bs w1 w2,
     rules = pre ++ r :: post
     /\ callConditions pre tk w = (bs, w1)
     /\ allFalse bs = true
     /\ Rule.condition r tk w1 = (true, w2))
  \/ (exists bs w1, callConditions rules tk w = (bs, w1) /\ allFalse bs = true).
Proof.
  induction rules as [|p rules IH]; intros tk w.
  - right. exists [], w. split; reflexivity.
  - destruct (Rule.condition p tk w) as [b w0] eqn:Hp. destruct b.
    + left. exists [], p, rules, [], w, w0. repeat split. exact Hp.
    + destruct (IH tk w0) as
        [(pre & r & post & bs & w1 & w2 & -> & Hpre & Hbs & Hr)
        |(bs & w1 & Hall & Hbs)].
      * left. exists (p :: pre), r, post, (false :: bs), w1, w2.
        repeat split; auto. simpl. rewrite Hp, Hpre. reflexivity.
      * right. exists (false :: bs), w1. split; auto.
        simpl. rewrite Hp, Hall. reflexivity.
Qed.

(** C1.  A visit of an ExclusiveGateway calls the conditions of [rules] in
    the order of the vector, which is the order of the [addPath] calls,
    each on the visiting token.  If [r] is the first rule whose condition
    answers true, the visit is the execution of [r]'s target and of nothing
    else, started in the state left by the conditions up to [r]: no
    condition after [r] is called and the default is not taken; when that
    target is an end event the visit returns, with the token completed
    there and the conditions up to [r], and no other, called.  If every
    condition answers false and a default is set, the visit is the
    execution of the default target in the same way.  Every visit is one
    of these two cases or the one without match. *)
Theorem exclusive_first_match_wins {W} (elems : list (BPMNElement.t W))
    (fuel : nat) (n : NodeId) (e : BPMNElement.t W)
    (rules : list (Rule.t W)) (dflt : option NodeId) (st : State.t W) :
  elems !! n = Some e ->
  BPMNElement.kind e = ExclusiveGateway rules dflt ->
  (forall pre r post bs w1 w2,
     rules = pre ++ r :: post ->
     callConditions pre (State.token st) (State.world st) = (bs, w1) ->
     allFalse bs = true ->
     Rule.condition r (State.token st) w1 = (true, w2) ->
     execute elems (S fuel) n st
     = execute elems fuel (Rule.nextNode r)
         (State.print (LogXor (BPMNElement.name e) (Rule.name r))
            (State.setWorld w2 st))
     /\ (forall target,
           elems !! Rule.nextNode r = Some target ->
           BPMNElement.kind target = Event false ->
           execute elems (S (S fuel)) n st
           = Some (State.mk
                     (Token.complete (BPMNElement.name target) (State.token st))
                     (ProcessContext.tokenCompleted (BPMNElement.name target)
                        (State.context st))
                     (State.out st
                        ++ [LogXor (BPMNElement.name e) (Rule.name r);
                            LogEnd (Token.candidateId (State.token st))
                                   (BPMNElement.name target)
                                   (Token.getCycleTime (State.token st))])
                     w2)))
  /\ (forall bs w1 d,
        callConditions rules (State.token st) (State.world st) = (bs, w1) ->
        allFalse bs = true ->
        dflt = Some d ->
        execute elems (S fuel) n st
        = execute elems fuel d
            (State.print (LogXorDefault (BPMNElement.name e))
               (State.setWorld w1 st))
        /\ (forall target,
              elems !! d = Some target ->
              BPMNElement.kind target = Event false ->
              execute elems (S (S fuel)) n st
              = Some (State.mk
                        (Token.complete (BPMNElement.name target)
                           (State.token st))
                        (ProcessContext.tokenCompleted (BPMNElement.name target)
                           (State.context st))
                        (State.out st
                           ++ [LogXorDefault (BPMNElement.name e);
                               LogEnd (Token.candidateId (State.token st))
                                      (BPMNElement.name target)
                                      (Token.getCycleTime (State.token st))])
                        w1)))
  /\ ((exists pre r post bs w1 w2,
         rules = pre ++ r :: post
         /\ callConditions pre (State.token st) (State.world st) = (bs, w1)
         /\ allFalse bs = true
         /\ Rule.condition r (State.token st) w1 = (true, w2))
      \/ (exists bs w1,
            callConditions rules (State.token st) (State.world st) = (bs, w1)
            /\ allFalse bs = true)).
Proof.
  intros He Hk. split; [|split].
  - intros pre r post bs w1 w2 -> Hpre Hbs Hr. split.
    + rewrite (execute_visit elems fuel n e st He).
      unfold dispatch. rewrite Hk.
      apply (loop_first_match _ e pre r post dflt st bs w1 w2 Hpre Hbs Hr).
    + intros target Ht Hkt.
      rewrite (execute_visit elems (S fuel) n e st He).
      unfold dispatch at 1. rewrite Hk.
      rewrite (loop_first_match _ e pre r post dflt st bs w1 w2 Hpre Hbs Hr).
      rewrite (execute_visit elems fuel _ target _ Ht).
      unfold dispatch. rewrite Hkt. unfold Event_execute.
      unfold State.print, State.setToken, State.setContext, State.setWorld.
      cbn [State.token State.context State.out State.world].
      rewrite <- app_assoc. reflexivity.
  - intros bs w1 d Hall Hbs ->. split.
    + rewrite (execute_visit elems fuel n e st He).
      unfold dispatch. rewrite Hk.
      apply (loop_no_match _ e rules (Some d) st bs w1 Hall Hbs).
    + intros target Ht Hkt.
      rewrite (execute_visit elems (S fuel) n e st He).
      unfold dispatch at 1. rewrite Hk.
      rewrite (loop_no_match _ e rules (Some d) st bs w1 Hall Hbs).
      rewrite (execute_visit elems fuel _ target _ Ht).
      unfold dispatch. rewrite Hkt. unfold Event_execute.
      unfold State.print, State.setToken, State.setContext, State.setWorld.
      cbn [State.token State.context State.out State.world].
      rewrite <- app_assoc. reflexivity.
  - apply conditions_cases.
Qed.

(** The scenario of C1 at the gateway: r1 answers false, r2 answers true.
    The visit returns: the conditions called are r1 and r2 and no other,
    and the token is completed at the target of r2, not at the target of
    r3 and not at the default target. *)
Lemma exclusive_first_match_wins_witness :
  execute (Process.elements xorProcess) 2 1%nat
    (initial (Token.new 1 0) ProcessContext.new [])
  = Some (State.mk
            (Token.complete "Destino r2" (Token.new 1 0))
            (ProcessContext.tokenCompleted "Destino r2" ProcessContext.new)
            [LogXor "Decision" "r2"; LogEnd 1 "Destino r2" (0 - 0)]
            ["r1"; "r2"]).
Proof.
  refine (proj2 (proj1 (exclusive_first_match_wins (Process.elements xorProcess)
                          0 1%nat _ _ _
                          (initial (Token.new 1 0) ProcessContext.new [])
                          eq_refl eq_refl)
                   [Rule.mk "r1" (probe "r1" false) 2%nat]
                   (Rule.mk "r2" (probe "r2" true) 3%nat)
                   [Rule.mk "r3" (probe "r3" true) 4%nat]
                   [false] ["r1"] ["r1"; "r2"] eq_refl eq_refl eq_refl eq_refl)
            _ eq_refl eq_refl).
Defined.

(** The whole scenario of C1, from the start event: the call log holds r1
    and r2 only, the case ends at the target of r2, and neither the target
    of r3 nor the default target is reached. *)
Lemma xor_scenario_run :
  exists s,
    execute (Process.elements xorProcess) 3 0%nat
      (initial (Token.new 1 0) ProcessContext.new []) = Some s
    /\ State.world s = ["r1"; "r2"]
    /\ State.out s
       = [LogStart 1 0; LogXor "Decision" "r2"; LogEnd 1 "Destino r2" 0]
    /\ Token.endReason (State.token s) = "Destino r2".
Proof. eexists. split; [vm_compute; reflexivity|]. repeat split. Qed.

(** C7 fails on the code: at a gateway without matching rule and without
    default the call returns like any other.  The failure is a line on
    [std::cerr]; the token and the context the caller gets back are those
    of a run in which no gateway was visited at all. *)
Lemma routing_failure_only_logged :
  exists s1 s2,
    execute (Process.elements deadEndProcess) 2 0%nat
      (initial (Token.new 1 0) ProcessContext.new tt) = Some s1
    /\ execute (Process.elements startOnlyProcess) 2 0%nat
         (initial (Token.new 1 0) ProcessContext.new tt) = Some s2
    /\ State.out s1 = [LogStart 1 0; ErrNoExit 1 "Decision"]
    /\ State.out s2 = [LogStart 1 0]
    /\ State.callerView s1 = State.callerView s2.
Proof.
  eexists. eexists.
  split; [vm_compute; reflexivity|].
  split; [vm_compute; reflexivity|].
  repeat split.
Qed.

(** C7, amended.  When no rule matches and no default is set, the visit
    writes one error report naming the token id and the gateway's display
    name to [std::cerr], runs no other node and returns normally.  The
    token and the context are left as they were, so a token that was not
    completed is still not completed; nothing but the output tells the
    caller about the failure. *)
Theorem exclusive_dead_end_logs_and_returns {W}
    (elems : list (BPMNElement.t W)) (fuel : nat) (n : NodeId)
    (e : BPMNElement.t W) (rules : list (Rule.t W)) (st : State.t W)
    (bs : list bool) (w1 : W) :
  elems !! n = Some e ->
  BPMNElement.kind e = ExclusiveGateway rules None ->
  callConditions rules (State.token st) (State.world st) = (bs, w1) ->
  allFalse bs = true ->
  execute elems (S fuel) n st
  = Some (State.mk (State.token st) (State.context st)
            (State.out st
               ++ [ErrNoExit (Token.candidateId (State.token st))
                             (BPMNElement.name e)])
            w1).
Proof.
  intros He Hk Hall Hbs.
  rewrite (execute_visit elems fuel n e st He).
  unfold dispatch. rewrite Hk.
  apply (loop_no_match _ e rules None st bs w1 Hall Hbs).
Qed.

Lemma exclusive_dead_end_logs_and_returns_witness :
  let st := initial (Token.new 7 0) ProcessContext.new tt in
  execute (Process.elements deadEndProcess) 1 1%nat st
  = Some (State.mk (Token.new 7 0) ProcessContext.new
            [ErrNoExit 7 "Decision"] tt).
Proof.
  intros st.
  refine (exclusive_dead_end_logs_and_returns (Process.elements deadEndProcess)
            0 1%nat _ _ st [false] tt eq_refl eq_refl _ _); reflexivity.
Defined.

(** ** Activity *)

(** C8 fails on the code: an activity on an unregistered resource returns
    normally.  The report on [std::cerr] names the resource and not the
    case (cases 1 and 2 give the same line), the token is left uncompleted,
    and the token and the context the caller gets back are those of a run
    in which no activity was visited. *)
Lemma unknown_resource_only_logged :
  exists s1 s2 s0,
    execute (Process.elements ghostProcess) 3 0%nat
      (initial (Token.new 1 0) ProcessContext.new tt) = Some s1
    /\ execute (Process.elements ghostProcess) 3 0%nat
         (initial (Token.new 2 0) ProcessContext.new tt) = Some s2
    /\ execute (Process.elements startOnlyProcess) 3 0%nat
         (initial (Token.new 1 0) ProcessContext.new tt) = Some s0
    /\ State.out s1 = [LogStart 1 0; ErrResource "Fantasma"]
    /\ List.filter isStderr (State.out s1) = List.filter isStderr (State.out s2)
    /\ Token.completed (State.token s1) = false
    /\ State.callerView s1 = State.callerView s0.
Proof.
  eexists. eexists. eexists.
  split; [vm_compute; reflexivity|].
  split; [vm_compute; reflexivity|].
  split; [vm_compute; reflexivity|].
  repeat split.
Qed.

(** C8, amended.  An Activity whose resource name is not registered in the
    context writes one error line naming the resource, and not the case,
    to [std::cerr] at that visit and returns normally.  The clock of the
    token is not advanced, no resource is touched, no later node runs and
    the token keeps its completion state; nothing but the output tells the
    caller about the failure. *)
Theorem activity_unknown_resource_logs_and_returns {W}
    (elems : list (BPMNElement.t W)) (fuel : nat) (n : NodeId)
    (e : BPMNElement.t W) (processingTime : Q) (resourceName : string)
    (st : State.t W) :
  elems !! n = Some e ->
  BPMNElement.kind e = Activity processingTime resourceName ->
  ProcessContext.getResource resourceName (State.context st) = None ->
  execute elems (S fuel) n st
  = Some (State.mk (State.token st) (State.context st)
            (State.out st ++ [ErrResource resourceName]) (State.world st)).
Proof.
  intros He Hk Hres.
  rewrite (execute_visit elems fuel n e st He).
  unfold dispatch. rewrite Hk.
  unfold Activity_execute. rewrite Hres. reflexivity.
Qed.

Lemma activity_unknown_resource_logs_and_returns_witness :
  let st := initial (Token.new 7 0) ProcessContext.new tt in
  execute (Process.elements ghostProcess) 1 1%nat st
  = Some (State.mk (Token.new 7 0) ProcessContext.new
            [ErrResource "Fantasma"] tt).
Proof.
  intros st.
  refine (activity_unknown_resource_logs_and_returns
            (Process.elements ghostProcess) 0 1%nat _ 10 "Fantasma" st
            eq_refl eq_refl _); reflexivity.
Defined.

Lemma waitForResource_id r : waitForResource r = r.
Proof. unfold waitForResource. destruct (negb (Resource.isAvailable r)); reflexivity. Qed.

Lemma activity_visit {W} (elems : list (BPMNElement.t W)) fuel n e
    processingTime resourceName st r :
  elems !! n = Some e ->
  BPMNElement.kind e = Activity processingTime resourceName ->
  ProcessContext.getResource resourceName (State.context st) = Some r ->
  execute elems (S fuel) n st
  = let st1 :=
      State.mk (Token.advanceTime processingTime (State.token st))
        (ProcessContext.setResource resourceName
           (Resource.release
              (Resource.addUsage processingTime (Resource.acquire r)))
           (State.context st))
        (State.out st
           ++ [LogActivity (BPMNElement.name e)
                 (Token.candidateId (State.token st))
                 processingTime resourceName])
        (State.world st) in
    match BPMNElement.outgoing e with
    | next :: _ => execute elems fuel next st1
    | [] => Some st1
    end.
Proof.
  intros He Hk Hres.
  rewrite (execute_visit elems fuel n e st He).
  unfold dispatch. rewrite Hk.
  unfold Activity_execute. rewrite Hres, waitForResource_id. reflexivity.
Qed.

(** C2 fails on the code.  With "A" (capacity 1) already held by someone
    else, so that [isAvailable()] is false, the activity runs at once: the
    clock of the token advances by the 10 minutes and the case ends; the
    [release] of the activity then gives back the unit it never took.  And
    with two cases arriving at time 0, both activities run from time 0 to
    time 10 on the capacity-1 resource: both cases end at time 10. *)
Lemma activity_proceeds_on_exhausted_resource :
  (exists r,
     ProcessContext.getResource "A" exhaustedContext = Some r
     /\ Resource.currentlyUsed r = 1
     /\ Resource.totalAvailable r = 1
     /\ Resource.isAvailable r = false)
  /\ (exists s r',
        execute (Process.elements (serialProcess 1)) 2 1%nat
          (initial (Token.new 2 0) exhaustedContext tt) = Some s
        /\ State.out s = [LogActivity "Tarea" 2 10 "A"; LogEnd 2 "Fin" 10]
        /\ Token.currentTime (State.token s) = 10%Q
        /\ Token.completed (State.token s) = true
        /\ ProcessContext.getResource "A" (State.context s) = Some r'
        /\ Resource.currentlyUsed r' = 0)
  /\ (exists p o,
        Process.simulate 3 2 0 (serialProcess 1) [] tt = Some (p, o, tt)
        /\ Token.currentTime <$> Process.tokens p = [10%Q; 10%Q]
        /\ Token.startTime <$> Process.tokens p = [0%Q; 0%Q]).
Proof.
  split; [|split].
  - eexists. split; [vm_compute; reflexivity|]. repeat split.
  - eexists. eexists. split; [vm_compute; reflexivity|].
    split; [reflexivity|]. split; [reflexivity|]. split; [reflexivity|].
    split; [vm_compute; reflexivity|]. reflexivity.
  - eexists. eexists. split; [vm_compute; reflexivity|].
    split; reflexivity.
Qed.

(** C2, amended.  [Activity::execute] never waits.  With the resource
    registered, it reads [isAvailable()] once and goes on whatever the
    answer: [acquire] adds one to [currentlyUsed] when the resource is
    available and changes nothing when it is exhausted, the clock of the
    token advances by the processing time, the usage is recorded, [release]
    is called, and the first outgoing edge is followed.
    [Process::simulate] runs the cases one after the other, each to the end
    of its [executeToken] call, so the activity of the second case is
    executed after the first case has released the resource; the clocks
    are not serialized: with capacity 1, two cases, interval 0 and a
    10-minute activity, both tokens start at 0 and end at 10. *)
Theorem activity_never_waits {W} (elems : list (BPMNElement.t W))
    (fuel : nat) (n : NodeId) (e : BPMNElement.t W) (processingTime : Q)
    (resourceName : string) (st : State.t W) (r : Resource.t) :
  elems !! n = Some e ->
  BPMNElement.kind e = Activity processingTime resourceName ->
  ProcessContext.getResource resourceName (State.context st) = Some r ->
  execute elems (S fuel) n st
  = (let st1 :=
       State.mk (Token.advanceTime processingTime (State.token st))
         (ProcessContext.setResource resourceName
            (Resource.release
               (Resource.addUsage processingTime (Resource.acquire r)))
            (State.context st))
         (State.out st
            ++ [LogActivity (BPMNElement.name e)
                  (Token.candidateId (State.token st))
                  processingTime resourceName])
         (State.world st) in
     match BPMNElement.outgoing e with
     | next :: _ => execute elems fuel next st1
     | [] => Some st1
     end)
  /\ (Resource.isAvailable r = false -> Resource.acquire r = r)
  /\ (Resource.isAvailable r = true ->
      Resource.currentlyUsed (Resource.acquire r) = Resource.currentlyUsed r + 1)
  /\ (exists p,
        Process.simulate 3 2 0 (serialProcess 1) [] tt
        = Some (p,
                [LogCandidate 1; LogStart 1 0; LogActivity "Tarea" 1 10 "A";
                 LogEnd 1 "Fin" 10;
                 LogCandidate 2; LogStart 2 0; LogActivity "Tarea" 2 10 "A";
                 LogEnd 2 "Fin" 10], tt)
        /\ Token.startTime <$> Process.tokens p = [0%Q; 0%Q]
        /\ Token.currentTime <$> Process.tokens p = [10%Q; 10%Q]).
Proof.
  intros He Hk Hres. split; [|split; [|split]].
  - apply (activity_visit elems fuel n e _ _ st r He Hk Hres).
  - intros Ha. unfold Resource.acquire. rewrite Ha. reflexivity.
  - intros Ha. unfold Resource.acquire. rewrite Ha. reflexivity.
  - eexists. split; [vm_compute; reflexivity|]. split; reflexivity.
Qed.

Lemma activity_never_waits_witness :
  exists s,
    execute (Process.elements (serialProcess 1)) 2 1%nat
      (initial (Token.new 2 0) exhaustedContext tt)
    = execute (Process.elements (serialProcess 1)) 1 2%nat s
    /\ Token.currentTime (State.token s) = (0 + 10)%Q
    /\ State.out s = [LogActivity "Tarea" 2 10 "A"].
Proof.
  eexists. split.
  - refine (proj1 (activity_never_waits (Process.elements (serialProcess 1))
                     1 1%nat _ 10 "A"
                     (initial (Token.new 2 0) exhaustedContext tt)
                     (Resource.mk "A" 1 1 60 0 0) eq_refl eq_refl _)).
    vm_compute. reflexivity.
  - split; reflexivity.
Defined.

(** ** ParallelGateway *)

(** C3 fails on the code.  Fork into three branches of 10, 20 and 30
    minutes that all reach the join, which leads to the end event: the join
    lets the token through three times, the first time when only the first
    branch has run, the end event is reached three times for the one case,
    and the clock ends at 60 = 10 + 20 + 30, not at 30, the latest of the
    three branches started together at the fork. *)
Lemma parallel_join_fires_per_branch :
  exists s,
    execute (forkJoinElements [10; 20; 30]%Q) 5 0%nat
      (initial (Token.new 1 0)
         (Process.context (forkJoinProcess [10; 20; 30]%Q)) tt) = Some s
    /\ State.out s
       = [LogStart 1 0; LogSplit "Dividir" 3;
          LogActivity "Rama" 1 10 "A"; LogJoin "Unir"; LogEnd 1 "Fin" 10;
          LogActivity "Rama" 1 20 "A"; LogJoin "Unir"; LogEnd 1 "Fin" 30;
          LogActivity "Rama" 1 30 "A"; LogJoin "Unir"; LogEnd 1 "Fin" 60]
    /\ joinPasses "Unir" (State.out s) = 3%nat
    /\ endsReached (State.out s) = 3%nat
    /\ ProcessContext.tokensCompleted (State.context s) = 3
    /\ (Token.currentTime (State.token s) == 60)%Q
    /\ ~ (Token.currentTime (State.token s) == Qmax 10 (Qmax 20 30))%Q.
Proof.
  eexists. split; [vm_compute; reflexivity|].
  repeat split. intros H. discriminate H.
Qed.

Lemma forkJoin_branch_lookup (pre post : list Q) (d : Q) :
  forkJoinElements (pre ++ d :: post) !! (4 + length pre)%nat
  = Some (BPMNElement.mk "branch" "Rama" [2%nat] (Activity d "A")).
Proof.
  unfold forkJoinElements. simpl.
  rewrite list_lookup_fmap, list_lookup_middle; reflexivity.
Qed.

Lemma forkJoin_branch_visit (pre post : list Q) (d : Q) (k : nat)
    (st : State.t unit) :
  is_Some (ProcessContext.getResource "A" (State.context st)) ->
  exists s,
    execute (forkJoinElements (pre ++ d :: post)) (3 + k)
      (4 + length pre)%nat st = Some s
    /\ branchStep d st s.
Proof.
  intros [r Hr].
  change (3 + k)%nat with (S (S (S k))).
  rewrite (activity_visit _ (S (S k)) _ _ d "A" st r
             (forkJoin_branch_lookup pre post d) eq_refl Hr).
  cbn [BPMNElement.outgoing].
  rewrite (execute_visit _ (S k) 2%nat
             (BPMNElement.mk "join" "Unir" [3%nat] (ParallelGateway false)))
    by reflexivity.
  cbn [dispatch BPMNElement.kind ParallelGateway_execute BPMNElement.outgoing].
  rewrite (execute_visit _ k 3%nat
             (BPMNElement.mk "end" "Fin" [] (Event false)))
    by reflexivity.
  eexists. split; [reflexivity|].
  constructor; simpl; try reflexivity.
  - rewrite <- !app_assoc. reflexivity.
  - unfold ProcessContext.getResource. simpl.
    rewrite lookup_insert_eq. eexists. reflexivity.
Qed.

Lemma joinPasses_app gw o1 o2 :
  joinPasses gw (o1 ++ o2) = (joinPasses gw o1 + joinPasses gw o2)%nat.
Proof. unfold joinPasses. rewrite List.filter_app, List.length_app. reflexivity. Qed.

Lemma endsReached_app o1 o2 :
  endsReached (o1 ++ o2) = (endsReached o1 + endsReached o2)%nat.
Proof. unfold endsReached. rewrite List.filter_app, List.length_app. reflexivity. Qed.

Lemma branchLog_counts ds : forall id start clock,
  joinPasses "Unir" (branchLog id start clock ds) = length ds
  /\ endsReached (branchLog id start clock ds) = length ds.
Proof.
  induction ds as [|d ds IH]; intros id start clock; [split; reflexivity|].
  destruct (IH id start (clock + d)%Q) as [Hj He].
  cbn [branchLog]. rewrite joinPasses_app, endsReached_app, Hj, He.
  split; reflexivity.
Qed.

Lemma forkJoin_branches (k : nat) (ds : list Q) : forall pre st,
  is_Some (ProcessContext.getResource "A" (State.context st)) ->
  exists s,
    forEachOutgoing (execute (forkJoinElements (pre ++ ds)) (3 + k))
      (seq (4 + length pre) (length ds)) st = Some s
    /\ Token.currentTime (State.token s)
       = fold_left Qplus ds (Token.currentTime (State.token st))
    /\ Token.candidateId (State.token s) = Token.candidateId (State.token st)
    /\ Token.startTime (State.token s) = Token.startTime (State.token st)
    /\ State.out s
       = State.out st
         ++ branchLog (Token.candidateId (State.token st))
              (Token.startTime (State.token st))
              (Token.currentTime (State.token st)) ds
    /\ ProcessContext.tokensCompleted (State.context s)
       = ProcessContext.tokensCompleted (State.context st)
         + Z.of_nat (length ds).
Proof.
  induction ds as [|d ds IH]; intros pre st Hres.
  - exists st. simpl. rewrite app_nil_r. repeat split. lia.
  - destruct (forkJoin_branch_visit pre ds d k st Hres) as (s1 & Hrun & Hstep).
    destruct Hstep as [Hclock Hid Hstart Hout Hdone Hres1].
    destruct (IH (pre ++ [d]) s1 Hres1)
      as (s & Hloop & Hc & Hi & Hs & Ho & Hd).
    rewrite <- app_assoc in Hloop. simpl in Hloop.
    rewrite List.length_app in Hloop. simpl in Hloop.
    replace (S (S (S (S (length pre + 1))))) with (S (4 + length pre))
      in Hloop by lia.
    exists s. split.
    + cbn [length seq forEachOutgoing]. rewrite Hrun. exact Hloop.
    + rewrite Hc, Hi, Hs, Ho, Hd, Hclock, Hid, Hstart, Hout, Hdone.
      cbn [fold_left branchLog length]. rewrite <- app_assoc.
      repeat split. lia.
Qed.

(** C3, amended.  A diverging ParallelGateway runs its outgoing branches
    one after the other, in the order of its edges, on the one token; a
    converging ParallelGateway forwards the token to its first outgoing
    edge at every arrival, with no barrier and no merge.  So for a fork
    into branches of [durations] minutes (activities on a registered
    resource) that all lead to the join and from there to the end event,
    the run returns, the part after the join runs once per branch (the
    first time when only the first branch has run), the end event is
    reached once per branch and counted each time, and the clock ends at
    the clock at the fork plus the sum of all [durations]. *)
Theorem parallel_gateway_runs_branches_in_turn
    (durations : list Q) (k : nat) (tk : Token.t) (c : ProcessContext.t)
    (o : list LogEvent) :
  is_Some (ProcessContext.getResource "A" c) ->
  (forall (W : Type) (elems : list (BPMNElement.t W)) fuel n e st,
     elems !! n = Some e ->
     BPMNElement.kind e = ParallelGateway true ->
     execute elems (S fuel) n st
     = forEachOutgoing (execute elems fuel) (BPMNElement.outgoing e)
         (State.print
            (LogSplit (BPMNElement.name e) (length (BPMNElement.outgoing e)))
            st))
  /\ (forall (W : Type) (elems : list (BPMNElement.t W)) fuel n e st,
        elems !! n = Some e ->
        BPMNElement.kind e = ParallelGateway false ->
        execute elems (S fuel) n st
        = match BPMNElement.outgoing e with
          | next :: _ =>
              execute elems fuel next
                (State.print (LogJoin (BPMNElement.name e)) st)
          | [] => Some (State.print (LogJoin (BPMNElement.name e)) st)
          end)
  /\ (exists s,
        execute (forkJoinElements durations) (5 + k) 0%nat (State.mk tk c o tt)
        = Some s
        /\ Token.currentTime (State.token s)
           = fold_left Qplus durations (Token.currentTime tk)
        /\ State.out s
           = o ++ [LogStart (Token.candidateId tk) (Token.currentTime tk);
                   LogSplit "Dividir" (length durations)]
               ++ branchLog (Token.candidateId tk) (Token.startTime tk)
                    (Token.currentTime tk) durations
        /\ joinPasses "Unir" (State.out s)
           = (joinPasses "Unir" o + length durations)%nat
        /\ endsReached (State.out s) = (endsReached o + length durations)%nat
        /\ ProcessContext.tokensCompleted (State.context s)
           = ProcessContext.tokensCompleted c + Z.of_nat (length durations)).
Proof.
  intros Hres. split; [|split].
  - intros W elems fuel n e st He Hk.
    rewrite (execute_visit elems fuel n e st He).
    unfold dispatch. rewrite Hk. reflexivity.
  - intros W elems fuel n e st He Hk.
    rewrite (execute_visit elems fuel n e st He).
    unfold dispatch. rewrite Hk. reflexivity.
  - set (st2 := State.mk tk (ProcessContext.tokenStarted c)
                  ((o ++ [LogStart (Token.candidateId tk) (Token.currentTime tk)])
                     ++ [LogSplit "Dividir" (length durations)]) tt).
    destruct (forkJoin_branches k durations [] st2 Hres)
      as (s & Hloop & Hc & Hi & Hs & Ho & Hd).
    exists s. split.
    + change (5 + k)%nat with (S (S (3 + k))).
      rewrite (execute_visit _ (S (3 + k)) 0%nat
                 (BPMNElement.mk "start" "Inicio" [1%nat] (Event true)))
        by reflexivity.
      cbn [dispatch BPMNElement.kind Event_execute BPMNElement.outgoing].
      rewrite (execute_visit _ (3 + k) 1%nat
                 (BPMNElement.mk "fork" "Dividir"
                    (seq 4 (length durations)) (ParallelGateway true)))
        by reflexivity.
      cbn [dispatch BPMNElement.kind ParallelGateway_execute
           BPMNElement.outgoing BPMNElement.name].
      rewrite length_seq. exact Hloop.
    + destruct (branchLog_counts durations (Token.candidateId tk)
                  (Token.startTime tk) (Token.currentTime tk)) as [Hj He].
      rewrite Hc, Ho, Hd. subst st2. cbn [State.token State.out State.context].
      rewrite <- !app_assoc.
      rewrite !joinPasses_app, !endsReached_app, Hj, He.
      repeat split.
Qed.

Lemma parallel_gateway_runs_branches_in_turn_witness :
  exists s,
    execute (forkJoinElements [10; 20; 30]%Q) 5 0%nat
      (State.mk (Token.new 1 0)
         (Process.context (forkJoinProcess [10; 20; 30]%Q)) [] tt) = Some s
    /\ Token.currentTime (State.token s) = (0 + 10 + 20 + 30)%Q
    /\ joinPasses "Unir" (State.out s) = 3%nat
    /\ endsReached (State.out s) = 3%nat
    /\ ProcessContext.tokensCompleted (State.context s) = 3.
Proof.
  assert (Hres : is_Some (ProcessContext.getResource "A"
                            (Process.context (forkJoinProcess [10; 20; 30]%Q)))).
  { eexists. vm_compute. reflexivity. }
  destruct (proj2 (proj2 (parallel_gateway_runs_branches_in_turn
                            [10; 20; 30]%Q 0 (Token.new 1 0)
                            (Process.context (forkJoinProcess [10; 20; 30]%Q))
                            [] Hres)))
    as (s & Hrun & Hc & _ & Hj & He & Hd).
  exists s. repeat split; assumption.
Defined.

(** ** What a run of the engine does to the context *)

(** The engine reaches the context through three doors only:
    [tokenStarted], [tokenCompleted], and the acquire / addUsage / release
    triple of an activity on a registered resource.  A property of
    contexts kept by the three is kept by every run that returns. *)
Section Preservation.

Context {W : Type}.
Variable P : ProcessContext.t -> Prop.

Hypothesis P_started : forall c, P c -> P (ProcessContext.tokenStarted c).
Hypothesis P_completed :
  forall c reason, P c -> P (ProcessContext.tokenCompleted reason c).
Hypothesis P_activity :
  forall c n r d,
    P c -> ProcessContext.getResource n c = Some r ->
    P (ProcessContext.setResource n
         (Resource.release (Resource.addUsage d (Resource.acquire r))) c).

Abbreviation keeps := (@keepsContext W P).

Lemma exclusive_keeps exec e rules : forall dflt st s,
  keeps exec ->
  ExclusiveGateway_execute exec e rules dflt st = Some s ->
  P (State.context st) -> P (State.context s).
Proof.
  induction rules as [|r rules IH]; intros dflt st s Hexec Hrun HP; simpl in Hrun.
  - destruct dflt as [d|].
    + apply (Hexec _ _ _ Hrun). exact HP.
    + injection Hrun as <-. exact HP.
  - destruct (Rule.condition r (State.token st) (State.world st)) as [b w].
    destruct b.
    + apply (Hexec _ _ _ Hrun). exact HP.
    + apply (IH dflt _ s Hexec Hrun). exact HP.
Qed.

Lemma forEachOutgoing_keeps exec nodes : forall st s,
  keeps exec ->
  forEachOutgoing exec nodes st = Some s ->
  P (State.context st) -> P (State.context s).
Proof.
  induction nodes as [|n nodes IH]; intros st s Hexec Hrun HP; simpl in Hrun.
  - injection Hrun as <-. exact HP.
  - destruct (exec n st) as [s1|] eqn:E; [|discriminate Hrun].
    apply (IH s1 s Hexec Hrun). apply (Hexec _ _ _ E). exact HP.
Qed.

Lemma dispatch_keeps exec e : keeps exec -> keeps (fun _ => dispatch exec e).
Proof.
  intros Hexec _ st s Hrun HP. unfold dispatch in Hrun.
  destruct (BPMNElement.kind e) as [isStart|pt rn|rules dflt|isDiv].
  - unfold Event_execute in Hrun. destruct isStart.
    + destruct (BPMNElement.outgoing e) as [|next ?].
      * injection Hrun as <-. simpl. auto.
      * apply (Hexec _ _ _ Hrun). simpl. auto.
    + injection Hrun as <-. simpl. auto.
  - unfold Activity_execute in Hrun.
    destruct (ProcessContext.getResource rn (State.context st)) as [r|] eqn:E.
    + rewrite waitForResource_id in Hrun.
      destruct (BPMNElement.outgoing e) as [|next ?].
      * injection Hrun as <-. simpl. auto.
      * apply (Hexec _ _ _ Hrun). simpl. auto.
    + injection Hrun as <-. exact HP.
  - apply (exclusive_keeps exec e rules dflt st s Hexec Hrun HP).
  - unfold ParallelGateway_execute in Hrun. destruct isDiv.
    + apply (forEachOutgoing_keeps exec _ _ s Hexec Hrun). exact HP.
    + destruct (BPMNElement.outgoing e) as [|next ?].
      * injection Hrun as <-. exact HP.
      * apply (Hexec _ _ _ Hrun). exact HP.
Qed.

Lemma execute_keeps (elems : list (BPMNElement.t W)) fuel :
  keeps (execute elems fuel).
Proof.
  induction fuel as [|fuel IH]; intros n st s Hrun HP; simpl in Hrun.
  - discriminate Hrun.
  - destruct (elems !! n) as [e|]; [|discriminate Hrun].
    apply (dispatch_keeps _ e IH n st s Hrun HP).
Qed.

End Preservation.

(** X27.  Every run of the engine that returns keeps the sum of the histogram
    equal to [tokensCompleted]. *)
Lemma execute_keeps_histogram {W} (elems : list (BPMNElement.t W)) fuel n st s :
  execute elems fuel n st = Some s ->
  ProcessContext.histogramTotal (State.context st)
    = ProcessContext.tokensCompleted (State.context st) ->
  ProcessContext.histogramTotal (State.context s)
    = ProcessContext.tokensCompleted (State.context s).
Proof.
  apply (execute_keeps
           (fun c => ProcessContext.histogramTotal c
                     = ProcessContext.tokensCompleted c)).
  - intros c H. exact H.
  - intros c reason H. rewrite histogramTotal_tokenCompleted. simpl. lia.
  - intros c n0 r d H _. exact H.
Qed.

(** X28.  Every run of the engine that returns keeps every registered resource
    within [0 <= currentlyUsed <= totalAvailable]. *)
Lemma execute_keeps_capacity {W} (elems : list (BPMNElement.t W)) fuel n st s :
  execute elems fuel n st = Some s ->
  map_Forall (fun _ r => Resource.inv r)
    (ProcessContext.resources (State.context st)) ->
  map_Forall (fun _ r => Resource.inv r)
    (ProcessContext.resources (State.context s)).
Proof.
  apply (execute_keeps
           (fun c => map_Forall (fun _ r => Resource.inv r)
                       (ProcessContext.resources c))).
  - intros c H. exact H.
  - intros c reason H. exact H.
  - intros c n0 r d H Hr. simpl. apply map_Forall_insert_2; [|exact H].
    apply release_inv, addUsage_inv, acquire_inv.
    apply (H n0 r Hr).
Qed.

(** * Further properties *)

(** ** Token: the data bag *)

(** X1.  [setData(key, value)] followed by [getData(key)] gives [value];
    the other keys read as before; a second [setData] on the key replaces
    the first; the clock, the completion state and the identity of the
    token are not touched. *)
Theorem setData_getData_round_trip (key value : string) (tk : Token.t) :
  fst (Token.getData key (Token.setData key value tk)) = value
  /\ (forall other, other <> key ->
        fst (Token.getData other (Token.setData key value tk))
        = fst (Token.getData other tk))
  /\ (forall older,
        Token.setData key value (Token.setData key older tk)
        = Token.setData key value tk)
  /\ Token.candidateId (Token.setData key value tk) = Token.candidateId tk
  /\ Token.currentTime (Token.setData key value tk) = Token.currentTime tk
  /\ Token.startTime (Token.setData key value tk) = Token.startTime tk
  /\ Token.completed (Token.setData key value tk) = Token.completed tk
  /\ Token.endReason (Token.setData key value tk) = Token.endReason tk.
Proof.
  split; [|split; [|split]].
  - unfold Token.getData, Token.setData. simpl.
    rewrite lookup_insert_eq. reflexivity.
  - intros other Hne. unfold Token.getData, Token.setData. simpl.
    rewrite lookup_insert_ne by congruence. reflexivity.
  - intros older. unfold Token.setData. simpl.
    rewrite insert_insert_eq. reflexivity.
  - repeat split.
Qed.

(** ** Resource: how the calls compose *)

Lemma run_fields ops : forall r,
  Resource.name (Resource.run ops r) = Resource.name r
  /\ Resource.totalAvailable (Resource.run ops r) = Resource.totalAvailable r
  /\ Resource.costPerHour (Resource.run ops r) = Resource.costPerHour r.
Proof.
  unfold Resource.run.
  induction ops as [|o ops IH]; intros r; simpl; [repeat split|].
  destruct (IH (Resource.step o r)) as (Hn & Hc & Hr).
  rewrite Hn, Hc, Hr.
  destruct o; simpl; try (repeat split; fail).
  - unfold Resource.acquire. destruct (Resource.isAvailable r); repeat split.
  - unfold Resource.release.
    destruct (0 <? Resource.currentlyUsed r); repeat split.
Qed.

Lemma run_usage ops : forall r,
  (Resource.totalTimeUsed (Resource.run ops r)
   == Resource.totalTimeUsed r + usageMinutes ops)%Q
  /\ (Resource.totalCost (Resource.run ops r)
      == Resource.totalCost r
         + usageMinutes ops / 60 * Resource.costPerHour r)%Q.
Proof.
  unfold Resource.run.
  induction ops as [|o ops IH]; intros r; simpl.
  - split; field.
  - destruct (IH (Resource.step o r)) as (Ht & Hc). rewrite Ht, Hc.
    destruct o; simpl.
    + unfold Resource.acquire. destruct (Resource.isAvailable r); simpl;
        split; reflexivity.
    + unfold Resource.release.
      destruct (0 <? Resource.currentlyUsed r); simpl; split; reflexivity.
    + split; field.
Qed.

(** X2.  After any sequence of [acquire], [release] and [addUsage] calls
    on a new resource, [totalTimeUsed] is the sum of the minutes passed to
    [addUsage] and [totalCost] is that sum divided by 60 times the hourly
    rate; the name, the capacity and the rate are those given to the
    constructor. *)
Theorem resource_usage_accounting
    (n : string) (capacity : Z) (cost : Q) (ops : list Resource.op) :
  let r := Resource.run ops (Resource.new n capacity cost) in
  (Resource.totalTimeUsed r == usageMinutes ops)%Q
  /\ (Resource.totalCost r == usageMinutes ops / 60 * cost)%Q
  /\ Resource.name r = n
  /\ Resource.totalAvailable r = capacity
  /\ Resource.costPerHour r = cost.
Proof.
  intros r.
  destruct (run_usage ops (Resource.new n capacity cost)) as (Ht & Hc).
  destruct (run_fields ops (Resource.new n capacity cost)) as (Hn & Ha & Hr).
  subst r. rewrite Ht, Hc. simpl.
  split; [field|]. split; [field|]. auto.
Qed.

(** X3.  On a resource with [currentlyUsed >= 0], the calls an activity
    makes, [acquire(); addUsage(m); release();], leave what [addUsage(m)]
    alone leaves when the resource is available.  When it is not available
    and [currentlyUsed > 0], the [release] takes back a unit the [acquire]
    never took: [currentlyUsed] ends one lower. *)
Theorem acquire_usage_release (m : Q) (r : Resource.t) :
  0 <= Resource.currentlyUsed r ->
  (Resource.isAvailable r = true ->
   Resource.release (Resource.addUsage m (Resource.acquire r))
   = Resource.addUsage m r)
  /\ (Resource.isAvailable r = true ->
      Resource.release (Resource.acquire r) = r)
  /\ (Resource.isAvailable r = false -> 0 < Resource.currentlyUsed r ->
      Resource.currentlyUsed
        (Resource.release (Resource.addUsage m (Resource.acquire r)))
      = Resource.currentlyUsed r - 1).
Proof.
  intros Hused. split; [|split].
  - intros Ha. unfold Resource.acquire. rewrite Ha.
    unfold Resource.release, Resource.addUsage. simpl.
    destruct (Z.ltb_spec 0 (Resource.currentlyUsed r + 1)); [|lia].
    replace (Resource.currentlyUsed r + 1 - 1) with (Resource.currentlyUsed r)
      by lia.
    reflexivity.
  - intros Ha. unfold Resource.acquire. rewrite Ha.
    unfold Resource.release. simpl.
    destruct (Z.ltb_spec 0 (Resource.currentlyUsed r + 1)); [|lia].
    replace (Resource.currentlyUsed r + 1 - 1) with (Resource.currentlyUsed r)
      by lia.
    destruct r; reflexivity.
  - intros Ha Hpos. unfold Resource.acquire. rewrite Ha.
    unfold Resource.release, Resource.addUsage. simpl.
    destruct (Z.ltb_spec 0 (Resource.currentlyUsed r)); [|lia].
    reflexivity.
Qed.

Lemma acquire_usage_release_witness :
  Resource.release (Resource.addUsage 10 (Resource.acquire (Resource.new "A" 2 60)))
  = Resource.addUsage 10 (Resource.new "A" 2 60).
Proof.
  apply (proj1 (acquire_usage_release 10 (Resource.new "A" 2 60) ltac:(simpl; lia))).
  reflexivity.
Defined.

Lemma iter_acquire k : forall r,
  Resource.currentlyUsed (Nat.iter k Resource.acquire r)
  = Z.max (Resource.currentlyUsed r)
      (Z.min (Resource.currentlyUsed r + Z.of_nat k) (Resource.totalAvailable r))
  /\ Resource.totalAvailable (Nat.iter k Resource.acquire r)
     = Resource.totalAvailable r.
Proof.
  induction k as [|k IH]; intros r.
  - simpl. split; lia.
  - rewrite Nat.iter_succ. destruct (IH r) as (Hu & Hc).
    unfold Resource.acquire at 1 3. unfold Resource.isAvailable.
    rewrite Hu, Hc.
    destruct (Z.ltb_spec
                (Z.max (Resource.currentlyUsed r)
                   (Z.min (Resource.currentlyUsed r + Z.of_nat k)
                      (Resource.totalAvailable r)))
                (Resource.totalAvailable r)); simpl; rewrite ?Hu, ?Hc; lia.
Qed.

Lemma iter_release k : forall r,
  Resource.currentlyUsed (Nat.iter k Resource.release r)
  = Z.min (Resource.currentlyUsed r)
      (Z.max (Resource.currentlyUsed r - Z.of_nat k) 0).
Proof.
  induction k as [|k IH]; intros r.
  - simpl. lia.
  - rewrite Nat.iter_succ. unfold Resource.release at 1. rewrite (IH r).
    destruct (Z.ltb_spec 0
                (Z.min (Resource.currentlyUsed r)
                   (Z.max (Resource.currentlyUsed r - Z.of_nat k) 0)));
      simpl; rewrite ?IH; lia.
Qed.

(** X4.  [acquire] saturates at the capacity and [release] at zero: [k]
    calls of [acquire] on a new resource of capacity [c] leave
    [currentlyUsed = min(k, max(0, c))], and [k] calls of [release] on a
    resource holding [u >= 0] units leave [max(u - k, 0)]. *)
Theorem acquire_release_saturate
    (n : string) (c : Z) (cost : Q) (k : nat) (r : Resource.t) :
  0 <= Resource.currentlyUsed r ->
  Resource.currentlyUsed (Nat.iter k Resource.acquire (Resource.new n c cost))
  = Z.min (Z.of_nat k) (Z.max 0 c)
  /\ Resource.currentlyUsed (Nat.iter k Resource.release r)
     = Z.max (Resource.currentlyUsed r - Z.of_nat k) 0.
Proof.
  intros Hused. split.
  - rewrite (proj1 (iter_acquire k (Resource.new n c cost))). simpl. lia.
  - rewrite iter_release. lia.
Qed.

Lemma acquire_release_saturate_witness :
  Resource.currentlyUsed (Nat.iter 5 Resource.acquire (Resource.new "A" 3 60)) = 3
  /\ Resource.currentlyUsed
       (Nat.iter 5 Resource.release
          (Nat.iter 2 Resource.acquire (Resource.new "A" 3 60))) = 0.
Proof.
  apply (acquire_release_saturate "A" 3 60 5
           (Nat.iter 2 Resource.acquire (Resource.new "A" 3 60))).
  simpl. lia.
Defined.

(** X5.  [getUtilization()] is a percentage of the capacity: within the
    bounds [0 <= currentlyUsed <= totalAvailable] and with a capacity of
    at least 1 it lies between 0 and 100, it is 0 for an idle resource and
    100 for an exhausted one.  For a capacity of 0 or less it is 0 (no
    division is attempted). *)
Theorem utilization_bounds (r : Resource.t) :
  Resource.inv r ->
  (1 <= Resource.totalAvailable r ->
   (0 <= Resource.getUtilization r)%Q
   /\ (Resource.getUtilization r <= 100)%Q
   /\ (Resource.currentlyUsed r = 0 -> (Resource.getUtilization r == 0)%Q)
   /\ (Resource.currentlyUsed r = Resource.totalAvailable r ->
       (Resource.getUtilization r == 100)%Q))
  /\ (Resource.totalAvailable r <= 0 -> Resource.getUtilization r = 0%Q).
Proof.
  intros [Hlo Hhi]. unfold Resource.getUtilization. split.
  - intros Hcap.
    destruct (Z.ltb_spec 0 (Resource.totalAvailable r)); [|lia].
    destruct (Resource.totalAvailable r) as [|cap|cap] eqn:Ecap; try lia.
    unfold Qle, Qeq, Qdiv, Qmult, Qinv, inject_Z. simpl.
    repeat split; intros; nia.
  - intros Hcap.
    destruct (Z.ltb_spec 0 (Resource.totalAvailable r)); [lia|reflexivity].
Qed.

Lemma utilization_bounds_witness :
  (0 <= Resource.getUtilization (Resource.acquire (Resource.new "A" 4 60)))%Q
  /\ (Resource.getUtilization (Resource.acquire (Resource.new "A" 4 60)) <= 100)%Q.
Proof.
  destruct (proj1 (utilization_bounds
                     (Resource.acquire (Resource.new "A" 4 60))
                     ltac:(unfold Resource.inv; simpl; lia))
              ltac:(simpl; lia)) as (H0 & H100 & _).
  split; assumption.
Defined.

(** ** ProcessContext: the resource registry and the counters *)

(** X6.  [addResource] registers a resource under a name that is free:
    [getResource] then gives the new resource, idle and without usage.
    Under a name that is taken it changes nothing, so of two registrations
    under one name the first wins.  The other names, the counters and the
    histogram are left alone in both cases. *)
Theorem addResource_first_wins
    (n : string) (q : Z) (cost : Q) (c : ProcessContext.t) :
  (ProcessContext.getResource n c = None ->
   ProcessContext.getResource n (ProcessContext.addResource n q cost c)
   = Some (Resource.new n q cost))
  /\ (is_Some (ProcessContext.getResource n c) ->
      ProcessContext.addResource n q cost c = c)
  /\ (forall q2 cost2,
        ProcessContext.addResource n q2 cost2
          (ProcessContext.addResource n q cost c)
        = ProcessContext.addResource n q cost c)
  /\ (forall other, other <> n ->
        ProcessContext.getResource other (ProcessContext.addResource n q cost c)
        = ProcessContext.getResource other c)
  /\ ProcessContext.tokensStarted (ProcessContext.addResource n q cost c)
     = ProcessContext.tokensStarted c
  /\ ProcessContext.tokensCompleted (ProcessContext.addResource n q cost c)
     = ProcessContext.tokensCompleted c
  /\ ProcessContext.endReasons (ProcessContext.addResource n q cost c)
     = ProcessContext.endReasons c.
Proof.
  assert (Htaken : forall c0 q0 cost0,
            is_Some (ProcessContext.getResource n c0) ->
            ProcessContext.addResource n q0 cost0 c0 = c0).
  { intros c0 q0 cost0 [r Hr].
    unfold ProcessContext.addResource, ProcessContext.getResource in *.
    rewrite Hr. destruct c0; reflexivity. }
  split; [|split; [|split; [|split]]].
  - intros Hfree.
    unfold ProcessContext.addResource, ProcessContext.getResource in *. simpl.
    rewrite Hfree. apply lookup_insert_eq.
  - apply Htaken.
  - intros q2 cost2. apply Htaken.
    unfold ProcessContext.addResource, ProcessContext.getResource. simpl.
    destruct (ProcessContext.resources c !! n) as [r|] eqn:E.
    + rewrite E. eexists. reflexivity.
    + rewrite lookup_insert_eq. eexists. reflexivity.
  - intros other Hne.
    unfold ProcessContext.addResource, ProcessContext.getResource. simpl.
    destruct (ProcessContext.resources c !! n); [reflexivity|].
    apply lookup_insert_ne. congruence.
  - repeat split.
Qed.

Lemma count_filter_cons {A} (f : A -> bool) (x : A) (l : list A) :
  length (List.filter f (x :: l))
  = ((if f x then 1 else 0) + length (List.filter f l))%nat.
Proof. simpl. destruct (f x); reflexivity. Qed.

Lemma step_started o c :
  ProcessContext.tokensStarted (ProcessContext.step o c)
  = ProcessContext.tokensStarted c
    + match o with ProcessContext.TokenStarted => 1 | _ => 0 end.
Proof.
  destruct o; simpl; try lia.
  unfold ProcessContext.getResource.
  destruct (ProcessContext.resources c !! n); simpl; lia.
Qed.

Lemma step_completed o c :
  ProcessContext.tokensCompleted (ProcessContext.step o c)
  = ProcessContext.tokensCompleted c
    + (if ProcessContext.isTokenCompleted o then 1 else 0).
Proof.
  destruct o; simpl; try lia.
  unfold ProcessContext.getResource.
  destruct (ProcessContext.resources c !! n); simpl; lia.
Qed.

Lemma step_reason reason o c :
  default 0 (ProcessContext.endReasons (ProcessContext.step o c) !! reason)
  = default 0 (ProcessContext.endReasons c !! reason)
    + match o with
      | ProcessContext.TokenCompleted r =>
          if bool_decide (r = reason) then 1 else 0
      | _ => 0
      end.
Proof.
  destruct o as [n q cost|time| |r|n ro]; simpl; try lia.
  - case_bool_decide as Hr.
    + subst r. rewrite lookup_insert_eq. reflexivity.
    + rewrite lookup_insert_ne by exact Hr. lia.
  - unfold ProcessContext.getResource.
    destruct (ProcessContext.resources c !! n); simpl; lia.
Qed.

Lemma step_reason_positive reason o c :
  (forall v, ProcessContext.endReasons c !! reason = Some v -> 0 < v) ->
  forall v,
    ProcessContext.endReasons (ProcessContext.step o c) !! reason = Some v ->
    0 < v.
Proof.
  intros Hc v.
  destruct o as [n q cost|time| |r|n ro]; simpl; try apply Hc.
  - destruct (decide (r = reason)) as [->|Hne].
    + rewrite lookup_insert_eq. intros [= <-].
      destruct (ProcessContext.endReasons c !! reason) as [x|] eqn:E; simpl.
      * specialize (Hc x eq_refl). lia.
      * lia.
    + rewrite lookup_insert_ne by exact Hne. apply Hc.
  - unfold ProcessContext.getResource.
    destruct (ProcessContext.resources c !! n); simpl; apply Hc.
Qed.

Lemma run_counters reason ops : forall c,
  (forall v, ProcessContext.endReasons c !! reason = Some v -> 0 < v) ->
  ProcessContext.tokensStarted (ProcessContext.run ops c)
  = ProcessContext.tokensStarted c + Z.of_nat (startedCalls ops)
  /\ ProcessContext.tokensCompleted (ProcessContext.run ops c)
     = ProcessContext.tokensCompleted c + Z.of_nat (completedCalls ops)
  /\ default 0 (ProcessContext.endReasons (ProcessContext.run ops c) !! reason)
     = default 0 (ProcessContext.endReasons c !! reason)
       + Z.of_nat (completedWith reason ops)
  /\ (forall v,
        ProcessContext.endReasons (ProcessContext.run ops c) !! reason = Some v ->
        0 < v).
Proof.
  unfold ProcessContext.run, startedCalls, completedCalls, completedWith.
  induction ops as [|o ops IH]; intros c Hpos.
  - simpl. repeat split; try lia. exact Hpos.
  - cbn [fold_left].
    destruct (IH (ProcessContext.step o c) (step_reason_positive reason o c Hpos))
      as (Hs & Hc & Hr & Hp).
    rewrite Hs, Hc, Hr, !count_filter_cons, step_started, step_completed,
      step_reason.
    repeat split; try exact Hp.
    + destruct o; lia.
    + destruct (ProcessContext.isTokenCompleted o); lia.
    + destruct o as [| | |r|]; try lia. case_bool_decide; lia.
Qed.

(** X7.  After any sequence of calls on a new [ProcessContext],
    [tokensStarted] is the number of [tokenStarted()] calls,
    [tokensCompleted] the number of [tokenCompleted(...)] calls, and the
    histogram entry of each reason the number of [tokenCompleted(reason)]
    calls; a reason has an entry exactly when it was reported at least
    once. *)
Theorem counters_count_calls (ops : list ProcessContext.op) (reason : string) :
  let c := ProcessContext.run ops ProcessContext.new in
  ProcessContext.tokensStarted c = Z.of_nat (startedCalls ops)
  /\ ProcessContext.tokensCompleted c = Z.of_nat (completedCalls ops)
  /\ default 0 (ProcessContext.endReasons c !! reason)
     = Z.of_nat (completedWith reason ops)
  /\ (ProcessContext.endReasons c !! reason = None
      <-> completedWith reason ops = 0%nat).
Proof.
  intros c.
  destruct (run_counters reason ops ProcessContext.new) as (Hs & Hc & Hr & Hp).
  { intros v. simpl. rewrite lookup_empty. discriminate. }
  subst c. simpl in Hs, Hc, Hr. rewrite lookup_empty in Hr. simpl in Hr.
  repeat split; try assumption.
  - intros Hnone. rewrite Hnone in Hr. simpl in Hr. lia.
  - intros Hzero. rewrite Hzero in Hr.
    destruct (ProcessContext.endReasons
                (ProcessContext.run ops ProcessContext.new) !! reason)
      as [v|] eqn:E; [|reflexivity].
    specialize (Hp v eq_refl). simpl in Hr. lia.
Qed.

Lemma step_registered n o c r :
  ProcessContext.getResource n c = Some r ->
  exists r',
    ProcessContext.getResource n (ProcessContext.step o c) = Some r'
    /\ Resource.name r' = Resource.name r
    /\ Resource.totalAvailable r' = Resource.totalAvailable r
    /\ Resource.costPerHour r' = Resource.costPerHour r.
Proof.
  intros Hr. unfold ProcessContext.getResource in *.
  destruct o as [m q cost|time| |reason|m ro]; simpl;
    try (exists r; repeat split; exact Hr).
  - destruct (ProcessContext.resources c !! m) as [x|] eqn:E.
    + exists r. repeat split. exact Hr.
    + exists r. repeat split.
      rewrite lookup_insert_ne; [exact Hr|]. intros ->. congruence.
  - unfold ProcessContext.getResource.
    destruct (ProcessContext.resources c !! m) as [x|] eqn:E; simpl.
    + destruct (decide (m = n)) as [->|Hne].
      * rewrite lookup_insert_eq. eexists. split; [reflexivity|].
        assert (x = r) by congruence. subst x.
        destruct (run_fields [ro] r) as (Hn & Hc & Hk). exact (conj Hn (conj Hc Hk)).
      * rewrite lookup_insert_ne by exact Hne. exists r. repeat split. exact Hr.
    + exists r. repeat split. exact Hr.
Qed.

(** X8.  A registered resource stays registered: whatever is called on the
    context afterwards (a second [addResource] under its name included),
    [getResource] still finds it, with the name, capacity and hourly rate
    it was registered with. *)
Theorem registered_resource_stays
    (ops : list ProcessContext.op) (n : string) (c : ProcessContext.t)
    (r : Resource.t) :
  ProcessContext.getResource n c = Some r ->
  exists r',
    ProcessContext.getResource n (ProcessContext.run ops c) = Some r'
    /\ Resource.name r' = Resource.name r
    /\ Resource.totalAvailable r' = Resource.totalAvailable r
    /\ Resource.costPerHour r' = Resource.costPerHour r.
Proof.
  unfold ProcessContext.run. revert c r.
  induction ops as [|o ops IH]; intros c r Hr; simpl.
  - exists r. repeat split. exact Hr.
  - destruct (step_registered n o c r Hr) as (r1 & H1 & Hn & Hc & Hk).
    destruct (IH _ r1 H1) as (r' & H' & Hn' & Hc' & Hk').
    exists r'. split; [exact H'|]. split; [|split]; congruence.
Qed.

Lemma registered_resource_stays_witness :
  exists r',
    ProcessContext.getResource "A"
      (ProcessContext.run
         [ProcessContext.AddResource "A" 9 1;
          ProcessContext.OnResource "A" Resource.Acquire;
          ProcessContext.OnResource "A" (Resource.AddUsage 30)]
         (ProcessContext.addResource "A" 2 60 ProcessContext.new)) = Some r'
    /\ Resource.name r' = "A"
    /\ Resource.totalAvailable r' = 2
    /\ Resource.costPerHour r' = 60%Q.
Proof.
  apply (registered_resource_stays _ "A"
           (ProcessContext.addResource "A" 2 60 ProcessContext.new)
           (Resource.new "A" 2 60)).
  vm_compute. reflexivity.
Defined.

(** ** Building an exclusive gateway *)

Lemma configureAll_gateway {W} (calls : list (GatewayCall W)) :
  forall (e : BPMNElement.t W) rules dflt,
    BPMNElement.kind e = ExclusiveGateway rules dflt ->
    BPMNElement.kind (configureAll calls e)
    = ExclusiveGateway (rules ++ acceptedRules calls) (lastDefault dflt calls)
    /\ BPMNElement.outgoing (configureAll calls e)
       = BPMNElement.outgoing e ++ acceptedEdges calls
    /\ BPMNElement.id (configureAll calls e) = BPMNElement.id e
    /\ BPMNElement.name (configureAll calls e) = BPMNElement.name e.
Proof.
  unfold configureAll.
  induction calls as [|call calls IH]; intros e rules dflt Hk.
  - simpl. rewrite !app_nil_r. repeat split. exact Hk.
  - cbn [fold_left].
    destruct call as [ruleName [tg|] [cond|]|[tg|]];
      cbn [configure acceptedRules acceptedEdges lastDefault].
    + destruct (IH (BPMNElement.addPath ruleName (Some tg) (Some cond) e)
                  (rules ++ [Rule.mk ruleName cond tg]) dflt)
        as (Hkind & Hout & Hid & Hname).
      { unfold BPMNElement.addPath. rewrite Hk. reflexivity. }
      rewrite Hkind, Hout, Hid, Hname, <- app_assoc.
      unfold BPMNElement.addPath. rewrite Hk. cbn.
      rewrite <- app_assoc. repeat split.
    + replace (BPMNElement.addPath ruleName (Some tg) None e) with e
        by (unfold BPMNElement.addPath; rewrite Hk; reflexivity).
      apply (IH e rules dflt Hk).
    + replace (BPMNElement.addPath ruleName None (Some cond) e) with e
        by (unfold BPMNElement.addPath; rewrite Hk; reflexivity).
      apply (IH e rules dflt Hk).
    + replace (BPMNElement.addPath ruleName None None e) with e
        by (unfold BPMNElement.addPath; rewrite Hk; reflexivity).
      apply (IH e rules dflt Hk).
    + destruct (IH (BPMNElement.setDefaultPath (Some tg) e) rules (Some tg))
        as (Hkind & Hout & Hid & Hname).
      { unfold BPMNElement.setDefaultPath. rewrite Hk. reflexivity. }
      rewrite Hkind, Hout, Hid, Hname.
      unfold BPMNElement.setDefaultPath. rewrite Hk. simpl.
      rewrite <- app_assoc. repeat split.
    + replace (BPMNElement.setDefaultPath None e) with e
        by (unfold BPMNElement.setDefaultPath; rewrite Hk; reflexivity).
      apply (IH e rules dflt Hk).
Qed.

Lemma acceptedRules_edges {W} (calls : list (GatewayCall W)) (r : Rule.t W) :
  r ∈ acceptedRules calls -> Rule.nextNode r ∈ acceptedEdges calls.
Proof.
  induction calls as [|[rn [tg|] [cond|]|[tg|]] calls IH];
    cbn [acceptedRules acceptedEdges]; intros Hin;
    try (apply IH; exact Hin); try (inversion Hin; fail).
  - apply elem_of_cons in Hin as [->|Hin].
    + left.
    + right. apply IH, Hin.
  - right. apply IH, Hin.
Qed.

Lemma lastDefault_edges {W} (calls : list (GatewayCall W)) : forall d0 d,
  lastDefault d0 calls = Some d -> d0 = Some d \/ d ∈ acceptedEdges calls.
Proof.
  induction calls as [|[rn [tg|] [cond|]|[tg|]] calls IH]; intros d0 d H0;
    cbn [lastDefault acceptedEdges] in *;
    try (destruct (IH d0 d H0) as [?|?]; [left; assumption|]; auto; fail).
  - left. exact H0.
  - destruct (IH d0 d H0) as [?|?]; [left; assumption|right; right; assumption].
  - destruct (IH (Some tg) d H0) as [Heq|?].
    + injection Heq as ->. right. left.
    + right. right. assumption.
Qed.

(** X9.  On a gateway as [addExclusiveGateway] creates it, any sequence of
    [addPath] and [setDefaultPath] calls leaves: as rules, exactly the
    [addPath] calls that have a condition and a target, each stored with
    its own name, condition and target, in call order (a call with a null
    condition or a null target adds nothing); as default, the target of the
    last [setDefaultPath] with a non-null target; as outgoing edges, the
    targets of all accepted calls in call order, so that every rule target
    and the default are among the outgoing edges, and a default that was
    replaced stays among them. *)
Theorem gateway_configuration {W} (id name : string)
    (calls : list (GatewayCall W)) :
  let g := configureAll calls
             (BPMNElement.mk id name [] (ExclusiveGateway [] None)) in
  BPMNElement.kind g
  = ExclusiveGateway (acceptedRules calls) (lastDefault None calls)
  /\ BPMNElement.outgoing g = acceptedEdges calls
  /\ (forall r, r ∈ acceptedRules calls ->
        Rule.nextNode r ∈ BPMNElement.outgoing g)
  /\ (forall d, lastDefault None calls = Some d -> d ∈ BPMNElement.outgoing g)
  /\ BPMNElement.id g = id
  /\ BPMNElement.name g = name.
Proof.
  intros g.
  destruct (configureAll_gateway calls
              (BPMNElement.mk id name [] (ExclusiveGateway [] None)) [] None
              eq_refl) as (Hkind & Hout & Hid & Hname).
  simpl in *. subst g.
  split; [exact Hkind|]. split; [exact Hout|].
  split; [|split; [|split; assumption]].
  - intros r Hr. rewrite Hout. apply acceptedRules_edges, Hr.
  - intros d Hd. rewrite Hout.
    destruct (lastDefault_edges calls None d Hd) as [H|H];
      [discriminate H|exact H].
Qed.

(** ** Edges that are never followed *)

Lemma exclusive_ext {W} (exec1 exec2 : NodeId -> State.t W -> option (State.t W))
    (e1 e2 : BPMNElement.t W) rules : forall dflt st,
  (forall n s, exec1 n s = exec2 n s) ->
  BPMNElement.name e1 = BPMNElement.name e2 ->
  ExclusiveGateway_execute exec1 e1 rules dflt st
  = ExclusiveGateway_execute exec2 e2 rules dflt st.
Proof.
  induction rules as [|r rules IH]; intros dflt st Hexec Hname; simpl.
  - rewrite Hname. destruct dflt; [apply Hexec|reflexivity].
  - destruct (Rule.condition r (State.token st) (State.world st)) as [b w].
    destruct b; [rewrite Hname; apply Hexec|].
    apply IH; assumption.
Qed.

Lemma forEachOutgoing_ext {W}
    (exec1 exec2 : NodeId -> State.t W -> option (State.t W)) nodes :
  forall st,
    (forall n s, exec1 n s = exec2 n s) ->
    forEachOutgoing exec1 nodes st = forEachOutgoing exec2 nodes st.
Proof.
  induction nodes as [|n nodes IH]; intros st Hexec; simpl; [reflexivity|].
  rewrite Hexec. destruct (exec2 n st); [apply IH, Hexec|reflexivity].
Qed.

Lemma dispatch_ext {W} (exec1 exec2 : NodeId -> State.t W -> option (State.t W))
    (e : BPMNElement.t W) st :
  (forall n s, exec1 n s = exec2 n s) ->
  dispatch exec1 e st = dispatch exec2 e st.
Proof.
  intros Hexec. unfold dispatch.
  destruct (BPMNElement.kind e) as [isStart|pt rn|rules dflt|isDiv].
  - unfold Event_execute. destruct isStart; [|reflexivity].
    destruct (BPMNElement.outgoing e); [reflexivity|apply Hexec].
  - unfold Activity_execute.
    destruct (ProcessContext.getResource rn (State.context st)); [|reflexivity].
    destruct (BPMNElement.outgoing e); [reflexivity|apply Hexec].
  - apply exclusive_ext; [exact Hexec|reflexivity].
  - unfold ParallelGateway_execute. destruct isDiv.
    + apply forEachOutgoing_ext, Hexec.
    + destruct (BPMNElement.outgoing e); [reflexivity|apply Hexec].
Qed.

Lemma dispatch_connectTo {W} (exec : NodeId -> State.t W -> option (State.t W))
    (x : NodeId) (e : BPMNElement.t W) st :
  ignoresLaterEdges e = true ->
  dispatch exec (BPMNElement.connectTo x e) st = dispatch exec e st.
Proof.
  unfold ignoresLaterEdges, dispatch, BPMNElement.connectTo. simpl.
  destruct (BPMNElement.kind e) as [isStart|pt rn|rules dflt|isDiv]; intros H.
  - unfold Event_execute. simpl. destruct isStart; [|reflexivity].
    destruct (BPMNElement.outgoing e); [discriminate H|reflexivity].
  - unfold Activity_execute. simpl.
    destruct (BPMNElement.outgoing e); [discriminate H|reflexivity].
  - apply exclusive_ext; reflexivity.
  - unfold ParallelGateway_execute. simpl. destruct isDiv; [discriminate H|].
    destruct (BPMNElement.outgoing e); [discriminate H|reflexivity].
Qed.

(** X10.  One more [connectTo] on an element changes no run of the process
    when the element is an exclusive gateway or an end event (they never
    read [outgoing]), or a start event, an activity or a converging
    gateway that already has an outgoing edge (they follow the first one
    only).  In particular an exclusive gateway wired with [connectTo]
    alone routes nowhere. *)
Theorem later_edges_are_ignored {W} (p : Process.t W) (ptr x : NodeId)
    (e : BPMNElement.t W) :
  Process.elements p !! ptr = Some e ->
  ignoresLaterEdges e = true ->
  forall fuel n st,
    execute (Process.elements
               (Process.onElement ptr (BPMNElement.connectTo x) p)) fuel n st
    = execute (Process.elements p) fuel n st.
Proof.
  intros He Hign fuel.
  change (Process.elements (Process.onElement ptr (BPMNElement.connectTo x) p))
    with (alter (BPMNElement.connectTo x) ptr (Process.elements p)).
  induction fuel as [|fuel IH]; intros n st; [reflexivity|].
  destruct (decide (n = ptr)) as [->|Hne].
  - rewrite (execute_visit _ fuel ptr (BPMNElement.connectTo x e))
      by (unfold NodeId in *; rewrite list_lookup_alter_eq, He; reflexivity).
    rewrite (execute_visit _ fuel ptr e) by exact He.
    rewrite (dispatch_ext _ (execute (Process.elements p) fuel) _ st IH).
    apply dispatch_connectTo, Hign.
  - destruct (Process.elements p !! n) as [e0|] eqn:E.
    + rewrite (execute_visit _ fuel n e0)
        by (unfold NodeId in *; rewrite list_lookup_alter_ne by congruence;
            exact E).
      rewrite (execute_visit _ fuel n e0) by exact E.
      apply dispatch_ext, IH.
    + cbn [execute]. unfold NodeId in *.
      rewrite list_lookup_alter_ne by congruence.
      rewrite E. reflexivity.
Qed.

Lemma later_edges_are_ignored_witness :
  execute (Process.elements
             (Process.onElement 1%nat (BPMNElement.connectTo 2%nat)
                deadEndProcess)) 2 0%nat
    (initial (Token.new 1 0) ProcessContext.new tt)
  = execute (Process.elements deadEndProcess) 2 0%nat
      (initial (Token.new 1 0) ProcessContext.new tt).
Proof.
  refine (later_edges_are_ignored deadEndProcess 1%nat 2%nat _ eq_refl eq_refl
            2%nat 0%nat _).
Defined.

(** ** What every run of the engine keeps *)

(** A run is a chain of visits; each visit changes the state in one of six
    ways.  A reflexive and transitive relation that holds across each of
    the six holds between the state before a run and the state in which it
    returns. *)
Section RunRelation.

Context {W : Type}.
Variable elems : list (BPMNElement.t W).
Variable R : State.t W -> State.t W -> Prop.

Hypothesis R_refl : forall st, R st st.
Hypothesis R_trans : forall a b c, R a b -> R b c -> R a c.

Hypothesis R_start :
  forall st,
    R st (State.print
            (LogStart (Token.candidateId (State.token st))
                      (Token.currentTime (State.token st)))
            (State.setContext
               (ProcessContext.tokenStarted (State.context st)) st)).

Hypothesis R_end :
  forall e st,
    e ∈ elems ->
    R st (State.mk
            (Token.complete (BPMNElement.name e) (State.token st))
            (ProcessContext.tokenCompleted (BPMNElement.name e)
               (State.context st))
            (State.out st
               ++ [LogEnd (Token.candidateId (State.token st))
                          (BPMNElement.name e)
                          (Token.getCycleTime (State.token st))])
            (State.world st)).

Hypothesis R_activity :
  forall e processingTime resourceName r st,
    e ∈ elems ->
    BPMNElement.kind e = Activity processingTime resourceName ->
    ProcessContext.getResource resourceName (State.context st) = Some r ->
    R st (State.mk
            (Token.advanceTime processingTime (State.token st))
            (ProcessContext.setResource resourceName
               (Resource.release
                  (Resource.addUsage processingTime (Resource.acquire r)))
               (State.context st))
            (State.out st
               ++ [LogActivity (BPMNElement.name e)
                     (Token.candidateId (State.token st))
                     processingTime resourceName])
            (State.world st)).

Hypothesis R_condition : forall st w, R st (State.setWorld w st).

Hypothesis R_line :
  forall ev st, plainLine ev = true -> R st (State.print ev st).

Abbreviation related exec :=
  (forall n st s, exec n st = Some s -> R st s).

Lemma exclusive_related exec e rules : forall dflt st s,
  related exec ->
  ExclusiveGateway_execute exec e rules dflt st = Some s -> R st s.
Proof.
  induction rules as [|r rules IH]; intros dflt st s Hexec Hrun; simpl in Hrun.
  - destruct dflt as [d|].
    + eapply R_trans; [|apply (Hexec _ _ _ Hrun)]. apply R_line. reflexivity.
    + injection Hrun as <-. apply R_line. reflexivity.
  - destruct (Rule.condition r (State.token st) (State.world st)) as [b w].
    destruct b.
    + eapply R_trans; [apply (R_condition st w)|].
      eapply R_trans; [|apply (Hexec _ _ _ Hrun)]. apply R_line. reflexivity.
    + eapply R_trans; [apply (R_condition st w)|].
      apply (IH dflt _ s Hexec Hrun).
Qed.

Lemma forEachOutgoing_related exec nodes : forall st s,
  related exec ->
  forEachOutgoing exec nodes st = Some s -> R st s.
Proof.
  induction nodes as [|n nodes IH]; intros st s Hexec Hrun; simpl in Hrun.
  - injection Hrun as <-. apply R_refl.
  - destruct (exec n st) as [s1|] eqn:E; [|discriminate Hrun].
    eapply R_trans; [apply (Hexec _ _ _ E)|apply (IH s1 s Hexec Hrun)].
Qed.

Lemma dispatch_related exec e st s :
  e ∈ elems ->
  related exec ->
  dispatch exec e st = Some s -> R st s.
Proof.
  intros Hin Hexec Hrun. unfold dispatch in Hrun.
  destruct (BPMNElement.kind e) as [isStart|pt rn|rules dflt|isDiv] eqn:Hk.
  - unfold Event_execute in Hrun. destruct isStart.
    + destruct (BPMNElement.outgoing e) as [|next ?].
      * injection Hrun as <-. apply R_start.
      * eapply R_trans; [apply R_start|apply (Hexec _ _ _ Hrun)].
    + injection Hrun as <-. apply (R_end e st Hin).
  - unfold Activity_execute in Hrun.
    destruct (ProcessContext.getResource rn (State.context st)) as [r|] eqn:E.
    + rewrite waitForResource_id in Hrun.
      destruct (BPMNElement.outgoing e) as [|next ?].
      * injection Hrun as <-. apply (R_activity e pt rn r st Hin Hk E).
      * eapply R_trans; [apply (R_activity e pt rn r st Hin Hk E)|].
        apply (Hexec _ _ _ Hrun).
    + injection Hrun as <-. apply R_line. reflexivity.
  - apply (exclusive_related exec e rules dflt st s Hexec Hrun).
  - unfold ParallelGateway_execute in Hrun. destruct isDiv.
    + eapply R_trans; [|apply (forEachOutgoing_related exec _ _ s Hexec Hrun)].
      apply R_line. reflexivity.
    + destruct (BPMNElement.outgoing e) as [|next ?].
      * injection Hrun as <-. apply R_line. reflexivity.
      * eapply R_trans; [|apply (Hexec _ _ _ Hrun)]. apply R_line. reflexivity.
Qed.

Lemma execute_related fuel : related (execute elems fuel).
Proof.
  induction fuel as [|fuel IH]; intros n st s Hrun; simpl in Hrun.
  - discriminate Hrun.
  - destruct (elems !! n) as [e|] eqn:E; [|discriminate Hrun].
    apply (dispatch_related _ e st s (list_elem_of_lookup_2 _ _ _ E) IH Hrun).
Qed.

End RunRelation.


Lemma run_keeps_token_identity_gen {W} (elems : list (BPMNElement.t W))
    (fuel : nat) (n : NodeId) (st s : State.t W) :
  execute elems fuel n st = Some s ->
  Token.candidateId (State.token s) = Token.candidateId (State.token st)
  /\ Token.startTime (State.token s) = Token.startTime (State.token st)
  /\ Token.data (State.token s) = Token.data (State.token st).
Proof.
  apply (execute_related elems
           (fun a b =>
              Token.candidateId (State.token b) = Token.candidateId (State.token a)
              /\ Token.startTime (State.token b) = Token.startTime (State.token a)
              /\ Token.data (State.token b) = Token.data (State.token a)));
    try (intros; simpl; repeat split; fail).
  intros a b c (H1 & H2 & H3) (H4 & H5 & H6).
  repeat split; congruence.
Qed.

(** X11.  The engine never writes the identity or the data of a token:
    when a run returns, the token has the [candidateId], the [startTime]
    and the data bag it came with. *)
Theorem run_keeps_token_identity {W} (elems : list (BPMNElement.t W))
    (fuel : nat) (n : NodeId) (st s : State.t W) :
  execute elems fuel n st = Some s ->
  Token.candidateId (State.token s) = Token.candidateId (State.token st)
  /\ Token.startTime (State.token s) = Token.startTime (State.token st)
  /\ Token.data (State.token s) = Token.data (State.token st).
Proof. apply run_keeps_token_identity_gen. Qed.

Lemma run_keeps_token_identity_witness :
  exists s,
    execute (forkJoinElements [10; 20; 30]%Q) 5 0%nat
      (initial (Token.setData "score" "42" (Token.new 7 3))
         (Process.context (forkJoinProcess [])) tt) = Some s
    /\ Token.candidateId (State.token s) = 7
    /\ Token.startTime (State.token s) = 3%Q
    /\ Token.data (State.token s) = {[ "score" := "42" ]}.
Proof.
  eexists. split; [vm_compute; reflexivity|].
  refine (run_keeps_token_identity (forkJoinElements [10; 20; 30]%Q) 5 0%nat
            (initial (Token.setData "score" "42" (Token.new 7 3))
               (Process.context (forkJoinProcess [])) tt) _ _).
  vm_compute. reflexivity.
Defined.




(** X13.  A run only moves forward: a token that was completed is still
    completed, [tokensStarted] and [tokensCompleted] have not gone down,
    and the output is the output before with lines added at the end. *)
Theorem run_only_moves_forward {W} (elems : list (BPMNElement.t W))
    (fuel : nat) (n : NodeId) (st s : State.t W) :
  execute elems fuel n st = Some s ->
  (Token.completed (State.token st) = true ->
   Token.completed (State.token s) = true)
  /\ ProcessContext.tokensStarted (State.context st)
     <= ProcessContext.tokensStarted (State.context s)
  /\ ProcessContext.tokensCompleted (State.context st)
     <= ProcessContext.tokensCompleted (State.context s)
  /\ exists more, State.out s = State.out st ++ more.
Proof.
  apply (execute_related elems
           (fun a b =>
              (Token.completed (State.token a) = true ->
               Token.completed (State.token b) = true)
              /\ ProcessContext.tokensStarted (State.context a)
                 <= ProcessContext.tokensStarted (State.context b)
              /\ ProcessContext.tokensCompleted (State.context a)
                 <= ProcessContext.tokensCompleted (State.context b)
              /\ exists more, State.out b = State.out a ++ more)).
  - intros a. repeat split; try lia; auto. exists []. rewrite app_nil_r. reflexivity.
  - intros a b c (H1 & H2 & H3 & m1 & H4) (H5 & H6 & H7 & m2 & H8).
    repeat split; try lia; auto.
    exists (m1 ++ m2). rewrite H8, H4, app_assoc. reflexivity.
  - intros a. simpl. repeat split; try lia; auto. eexists. reflexivity.
  - intros e a _. simpl. repeat split; try lia. eexists. reflexivity.
  - intros e pt rn r a _ _ _. simpl. repeat split; try lia; auto.
    eexists. reflexivity.
  - intros a w. simpl. repeat split; try lia; auto.
    exists []. rewrite app_nil_r. reflexivity.
  - intros ev a _. simpl. repeat split; try lia; auto. eexists. reflexivity.
Qed.

Lemma run_only_moves_forward_witness :
  exists s,
    execute (Process.elements deadEndProcess) 2 0%nat
      (initial (Token.complete "Fin" (Token.new 1 0)) ProcessContext.new tt)
    = Some s
    /\ Token.completed (State.token s) = true
    /\ 0 <= ProcessContext.tokensStarted (State.context s).
Proof.
  eexists. split; [vm_compute; reflexivity|].
  destruct (run_only_moves_forward (Process.elements deadEndProcess) 2 0%nat
              (initial (Token.complete "Fin" (Token.new 1 0))
                 ProcessContext.new tt)
              _ ltac:(vm_compute; reflexivity)) as (Hc & Hs & _).
  split; [apply Hc; reflexivity|exact Hs].
Defined.

Lemma startsLogged_snoc o e :
  Z.of_nat (startsLogged (o ++ [e]))
  = Z.of_nat (startsLogged o)
    + match e with LogStart _ _ => 1 | _ => 0 end.
Proof.
  unfold startsLogged. rewrite List.filter_app, List.length_app.
  destruct e; simpl; lia.
Qed.

Lemma endsReached_snoc o e :
  Z.of_nat (endsReached (o ++ [e]))
  = Z.of_nat (endsReached o)
    + match e with LogEnd _ _ _ => 1 | _ => 0 end.
Proof.
  unfold endsReached. rewrite List.filter_app, List.length_app.
  destruct e; simpl; lia.
Qed.

Lemma loggedMinutes_snoc o e :
  (loggedMinutes (o ++ [e])
   == loggedMinutes o
      + match e with LogActivity _ _ minutes _ => minutes | _ => 0 end)%Q.
Proof.
  induction o as [|x o IH]; simpl.
  - destruct e; simpl; ring.
  - destruct x; simpl; rewrite ?IH; try reflexivity. ring.
Qed.

(** X14.  The output and the state account for each other.  Across a run,
    [tokensStarted] grows by the number of start lines printed,
    [tokensCompleted] by the number of end lines printed, and the clock of
    the token by the minutes of the activity lines printed. *)
Theorem run_log_matches_counters {W} (elems : list (BPMNElement.t W))
    (fuel : nat) (n : NodeId) (st s : State.t W) :
  execute elems fuel n st = Some s ->
  ProcessContext.tokensStarted (State.context s)
    - Z.of_nat (startsLogged (State.out s))
  = ProcessContext.tokensStarted (State.context st)
    - Z.of_nat (startsLogged (State.out st))
  /\ ProcessContext.tokensCompleted (State.context s)
       - Z.of_nat (endsReached (State.out s))
     = ProcessContext.tokensCompleted (State.context st)
       - Z.of_nat (endsReached (State.out st))
  /\ (Token.currentTime (State.token s) - loggedMinutes (State.out s)
      == Token.currentTime (State.token st) - loggedMinutes (State.out st))%Q.
Proof.
  apply (execute_related elems
           (fun a b =>
              ProcessContext.tokensStarted (State.context b)
                - Z.of_nat (startsLogged (State.out b))
              = ProcessContext.tokensStarted (State.context a)
                - Z.of_nat (startsLogged (State.out a))
              /\ ProcessContext.tokensCompleted (State.context b)
                   - Z.of_nat (endsReached (State.out b))
                 = ProcessContext.tokensCompleted (State.context a)
                   - Z.of_nat (endsReached (State.out a))
              /\ (Token.currentTime (State.token b) - loggedMinutes (State.out b)
                  == Token.currentTime (State.token a)
                     - loggedMinutes (State.out a))%Q)).
  - intros a. repeat split; reflexivity.
  - intros a b c (H1 & H2 & H3) (H4 & H5 & H6).
    split; [lia|]. split; [lia|]. rewrite H6. exact H3.
  - intros a. simpl.
    rewrite startsLogged_snoc, endsReached_snoc, loggedMinutes_snoc.
    split; [lia|]. split; [lia|]. ring.
  - intros e a _. simpl.
    rewrite startsLogged_snoc, endsReached_snoc, loggedMinutes_snoc.
    split; [lia|]. split; [lia|]. ring.
  - intros e pt rn r a _ _ _. simpl.
    rewrite startsLogged_snoc, endsReached_snoc, loggedMinutes_snoc.
    split; [lia|]. split; [lia|]. ring.
  - intros a w. simpl. repeat split; reflexivity.
  - intros ev a Hev. simpl.
    rewrite startsLogged_snoc, endsReached_snoc, loggedMinutes_snoc.
    destruct ev; try discriminate Hev; (split; [lia|]); (split; [lia|]); ring.
Qed.

Lemma run_log_matches_counters_witness :
  exists s,
    execute (forkJoinElements [10; 20; 30]%Q) 5 0%nat
      (initial (Token.new 1 0) (Process.context (forkJoinProcess [])) tt)
    = Some s
    /\ ProcessContext.tokensCompleted (State.context s)
         - Z.of_nat (endsReached (State.out s)) = 0.
Proof.
  eexists. split; [vm_compute; reflexivity|].
  refine (proj1 (proj2 (run_log_matches_counters
                          (forkJoinElements [10; 20; 30]%Q) 5 0%nat
                          (initial (Token.new 1 0)
                             (Process.context (forkJoinProcess [])) tt)
                          _ _))).
  vm_compute. reflexivity.
Defined.

Lemma sameRegistry_refl c : sameRegistry c c.
Proof.
  intros n. destruct (ProcessContext.getResource n c); [repeat split|exact I].
Qed.

Lemma sameRegistry_trans a b c :
  sameRegistry a b -> sameRegistry b c -> sameRegistry a c.
Proof.
  intros Hab Hbc n. specialize (Hab n). specialize (Hbc n).
  destruct (ProcessContext.getResource n a),
           (ProcessContext.getResource n b),
           (ProcessContext.getResource n c); try tauto.
  destruct Hab as (? & ? & ?), Hbc as (? & ? & ?).
  repeat split; congruence.
Qed.

Lemma sameRegistry_activity c rn r d :
  ProcessContext.getResource rn c = Some r ->
  sameRegistry c
    (ProcessContext.setResource rn
       (Resource.release (Resource.addUsage d (Resource.acquire r))) c).
Proof.
  intros Hr n. unfold ProcessContext.getResource in *. simpl.
  destruct (decide (rn = n)) as [<-|Hne].
  - rewrite Hr, lookup_insert_eq.
    exact (run_fields [Resource.Acquire; Resource.AddUsage d; Resource.Release] r).
  - rewrite lookup_insert_ne by exact Hne.
    destruct (ProcessContext.resources c !! n); [repeat split|exact I].
Qed.

(** X15.  A run neither registers nor removes a resource and changes no
    capacity or rate: the context it returns has the same names registered
    as the context it got, each with the same [name], [totalAvailable] and
    [costPerHour]. *)
Theorem run_keeps_registry {W} (elems : list (BPMNElement.t W))
    (fuel : nat) (n : NodeId) (st s : State.t W) :
  execute elems fuel n st = Some s ->
  sameRegistry (State.context st) (State.context s).
Proof.
  apply (execute_related elems
           (fun a b => sameRegistry (State.context a) (State.context b))).
  - intros a. exact (sameRegistry_refl _).
  - intros a b c. exact (sameRegistry_trans _ _ _).
  - intros a. exact (sameRegistry_refl _).
  - intros e a _. exact (sameRegistry_refl _).
  - intros e pt rn r a _ _ Hr. exact (sameRegistry_activity _ rn r pt Hr).
  - intros a w. exact (sameRegistry_refl _).
  - intros ev a _. exact (sameRegistry_refl _).
Qed.

Lemma run_keeps_registry_witness :
  exists s,
    execute (Process.elements (serialProcess 1)) 3 0%nat
      (initial (Token.new 1 0) (Process.context (serialProcess 1)) tt) = Some s
    /\ sameRegistry (Process.context (serialProcess 1)) (State.context s).
Proof.
  eexists. split; [vm_compute; reflexivity|].
  refine (run_keeps_registry (Process.elements (serialProcess 1)) 3 0%nat
            (initial (Token.new 1 0) (Process.context (serialProcess 1)) tt)
            _ _).
  vm_compute. reflexivity.
Defined.

(** X16.  A run leaves no resource held: when every registered resource is
    idle ([currentlyUsed = 0]) before a run, every one is idle when the
    run returns, whatever the capacities are. *)
Theorem run_leaves_resources_idle {W} (elems : list (BPMNElement.t W))
    (fuel : nat) (n : NodeId) (st s : State.t W) :
  execute elems fuel n st = Some s ->
  allIdle (State.context st) ->
  allIdle (State.context s).
Proof.
  apply (execute_keeps allIdle).
  - intros c H. exact H.
  - intros c reason H. exact H.
  - intros c n0 r d H Hr. unfold allIdle. simpl.
    apply map_Forall_insert_2; [|exact H].
    pose proof (H n0 r Hr) as Hidle. simpl in Hidle.
    unfold Resource.acquire, Resource.isAvailable. rewrite Hidle.
    destruct (0 <? Resource.totalAvailable r); unfold Resource.release; simpl.
    + reflexivity.
    + rewrite Hidle. simpl. exact Hidle.
Qed.

Lemma run_leaves_resources_idle_witness :
  exists s,
    execute (Process.elements (serialProcess 0)) 3 0%nat
      (initial (Token.new 1 0) (Process.context (serialProcess 0)) tt) = Some s
    /\ allIdle (State.context s).
Proof.
  eexists. split; [vm_compute; reflexivity|].
  refine (run_leaves_resources_idle (Process.elements (serialProcess 0)) 3 0%nat
            (initial (Token.new 1 0) (Process.context (serialProcess 0)) tt)
            _ _ _).
  - vm_compute. reflexivity.
  - intros k r Hr. cbn in Hr.
    apply lookup_insert_Some in Hr as [[_ <-]|[_ Hr]]; [reflexivity|].
    rewrite lookup_empty in Hr. discriminate Hr.
Defined.

(** ** Building a process *)

Lemma isStartEvent_connectTo {W} x (e : BPMNElement.t W) :
  isStartEvent (BPMNElement.connectTo x e) = isStartEvent e.
Proof. reflexivity. Qed.

Lemma configure_cases {W} (call : GatewayCall W) (e : BPMNElement.t W) :
  configure call e = e
  \/ exists rules dflt rules' dflt' tg,
       BPMNElement.kind e = ExclusiveGateway rules dflt
       /\ configure call e
          = BPMNElement.mk (BPMNElement.id e) (BPMNElement.name e)
              (BPMNElement.outgoing e ++ [tg])
              (ExclusiveGateway rules' dflt').
Proof.
  destruct call as [rn target condition|target]; simpl.
  - unfold BPMNElement.addPath.
    destruct (BPMNElement.kind e) as [b|pt res|rules dflt|b] eqn:Hk;
      try (left; reflexivity).
    destruct condition as [cond|]; [|left; reflexivity].
    destruct target as [tg|]; [|left; reflexivity].
    right. exists rules, dflt. eexists. eexists. exists tg.
    split; reflexivity.
  - unfold BPMNElement.setDefaultPath.
    destruct (BPMNElement.kind e) as [b|pt res|rules dflt|b] eqn:Hk;
      try (left; reflexivity).
    destruct target as [tg|]; [|left; reflexivity].
    right. exists rules, dflt. eexists. eexists. exists tg.
    split; reflexivity.
Qed.

Lemma configure_class {W} (call : GatewayCall W) (e : BPMNElement.t W) :
  BPMNElement.id (configure call e) = BPMNElement.id e
  /\ BPMNElement.name (configure call e) = BPMNElement.name e
  /\ BPMNElement.getType (configure call e) = BPMNElement.getType e
  /\ isStartEvent (configure call e) = isStartEvent e
  /\ exists more,
       BPMNElement.outgoing (configure call e) = BPMNElement.outgoing e ++ more.
Proof.
  destruct (configure_cases call e)
    as [->|(rules & dflt & rules' & dflt' & tg & Hk & ->)].
  - repeat split. exists []. rewrite app_nil_r. reflexivity.
  - unfold BPMNElement.getType, isStartEvent. rewrite Hk. simpl.
    repeat split. exists [tg]. reflexivity.
Qed.

Lemma onElement_startElementOk {W} (ptr : NodeId)
    (f : BPMNElement.t W -> BPMNElement.t W) (p : Process.t W) :
  (forall e, isStartEvent (f e) = isStartEvent e) ->
  startElementOk p -> startElementOk (Process.onElement ptr f p).
Proof.
  intros Hf. unfold startElementOk, NodeId in *. simpl.
  assert (Hlook : forall i e',
            alter f ptr (Process.elements p) !! i = Some e' ->
            exists e, Process.elements p !! i = Some e
                      /\ isStartEvent e' = isStartEvent e).
  { intros i e'. rewrite list_lookup_alter. case_decide as Hi.
    - subst i. destruct (Process.elements p !! ptr) as [e|]; simpl; [|discriminate].
      intros [= <-]. exists e. split; [reflexivity|apply Hf].
    - intros He'. exists e'. split; [exact He'|reflexivity]. }
  destruct (Process.startElement p) as [s|].
  - intros [(e & He & Hstart) Hbefore]. split.
    + destruct (decide (ptr = s)) as [->|Hne].
      * exists (f e). rewrite list_lookup_alter_eq, He. split; [reflexivity|].
        rewrite Hf. exact Hstart.
      * exists e. rewrite list_lookup_alter_ne by exact Hne. split; assumption.
    + intros i e' Hi He'. destruct (Hlook i e' He') as (e0 & He0 & ->).
      apply (Hbefore i e0 Hi He0).
  - intros Hnone i e' He'. destruct (Hlook i e' He') as (e0 & He0 & ->).
    apply (Hnone i e0 He0).
Qed.

Lemma push_startElementOk {W} (e : BPMNElement.t W) (p : Process.t W) :
  isStartEvent e = false ->
  startElementOk p -> startElementOk (snd (Process.push e p)).
Proof.
  intros He. unfold startElementOk, NodeId. simpl.
  destruct (Process.startElement p) as [s|].
  - intros [(e0 & He0 & Hstart) Hbefore]. split.
    + exists e0. split; [|exact Hstart].
      apply lookup_app_l_Some. exact He0.
    + intros i e' Hi He'.
      assert (Hs : (s < length (Process.elements p))%nat)
        by (apply lookup_lt_Some with e0; exact He0).
      rewrite lookup_app_l in He' by lia. apply (Hbefore i e' Hi He').
  - intros Hnone i e' He'.
    apply lookup_app_Some in He' as [He'|[_ He']].
    + apply (Hnone i e' He').
    + destruct (i - length (Process.elements p))%nat; simpl in He'.
      * injection He' as <-. exact He.
      * discriminate He'.
Qed.

Lemma build_startElementOk {W} (call : BuildCall W) (p : Process.t W) :
  startElementOk p -> startElementOk (build call p).
Proof.
  destruct call; simpl;
    try (apply push_startElementOk; reflexivity).
  - (* addStartEvent *)
    unfold startElementOk, NodeId. simpl.
    destruct (Process.startElement p) as [s|].
    + intros [(e0 & He0 & Hstart) Hbefore]. split.
      * exists e0. split; [|exact Hstart]. apply lookup_app_l_Some. exact He0.
      * intros i e' Hi He'.
        assert (Hs : (s < length (Process.elements p))%nat)
          by (apply lookup_lt_Some with e0; exact He0).
        rewrite lookup_app_l in He' by lia. apply (Hbefore i e' Hi He').
    + intros Hnone. split.
      * eexists. rewrite list_lookup_middle by reflexivity.
        split; reflexivity.
      * intros i e' Hi He'. rewrite lookup_app_l in He' by exact Hi.
        apply (Hnone i e' He').
  - (* addResource *) intros H. exact H.
  - apply onElement_startElementOk. intros e. reflexivity.
  - apply onElement_startElementOk. intros e. apply configure_class.
Qed.

(** X17.  However a process is built, [startElement] is null exactly when
    no start event was added, and otherwise points into [elements], at the
    first start event added: later [addStartEvent] calls do not replace
    it, and no [connectTo], [addPath] or [setDefaultPath] call turns the
    element it points at into something else. *)
Theorem start_element_is_first_start_event {W} (nm : string)
    (calls : list (BuildCall W)) :
  startElementOk (buildAll calls (Process.new nm)).
Proof.
  assert (Hgen : forall (p : Process.t W),
            startElementOk p -> startElementOk (buildAll calls p)).
  { unfold buildAll. induction calls as [|call calls IH]; intros p Hp; simpl.
    - exact Hp.
    - apply IH, build_startElementOk, Hp. }
  apply Hgen. intros i e He. simpl in He. rewrite lookup_nil in He.
  discriminate He.
Qed.

Lemma onElement_keeps {W} (ptr : NodeId)
    (f : BPMNElement.t W -> BPMNElement.t W) (p : Process.t W) i e :
  (forall e0,
     BPMNElement.id (f e0) = BPMNElement.id e0
     /\ BPMNElement.name (f e0) = BPMNElement.name e0
     /\ BPMNElement.getType (f e0) = BPMNElement.getType e0
     /\ exists more,
          BPMNElement.outgoing (f e0) = BPMNElement.outgoing e0 ++ more) ->
  Process.elements p !! i = Some e ->
  exists e',
    Process.elements (Process.onElement ptr f p) !! i = Some e'
    /\ BPMNElement.id e' = BPMNElement.id e
    /\ BPMNElement.name e' = BPMNElement.name e
    /\ BPMNElement.getType e' = BPMNElement.getType e
    /\ exists more, BPMNElement.outgoing e' = BPMNElement.outgoing e ++ more.
Proof.
  intros Hf He. unfold NodeId in *. simpl.
  destruct (decide (ptr = i)) as [->|Hne].
  - exists (f e). rewrite list_lookup_alter_eq, He. split; [reflexivity|apply Hf].
  - exists e. rewrite list_lookup_alter_ne by exact Hne.
    split; [exact He|]. repeat split. exists []. rewrite app_nil_r. reflexivity.
Qed.

Lemma build_keeps {W} (call : BuildCall W) (p : Process.t W) i e :
  Process.elements p !! i = Some e ->
  exists e',
    Process.elements (build call p) !! i = Some e'
    /\ BPMNElement.id e' = BPMNElement.id e
    /\ BPMNElement.name e' = BPMNElement.name e
    /\ BPMNElement.getType e' = BPMNElement.getType e
    /\ exists more, BPMNElement.outgoing e' = BPMNElement.outgoing e ++ more.
Proof.
  intros He.
  assert (Hsame : forall l : list (BPMNElement.t W),
            l !! i = Some e ->
            exists e',
              l !! i = Some e'
              /\ BPMNElement.id e' = BPMNElement.id e
              /\ BPMNElement.name e' = BPMNElement.name e
              /\ BPMNElement.getType e' = BPMNElement.getType e
              /\ exists more,
                   BPMNElement.outgoing e' = BPMNElement.outgoing e ++ more).
  { intros l Hl. exists e. split; [exact Hl|]. repeat split.
    exists []. rewrite app_nil_r. reflexivity. }
  destruct call; simpl;
    try (apply Hsame; unfold NodeId in *; apply lookup_app_l_Some; exact He).
  - apply Hsame, He.
  - apply (onElement_keeps from (BPMNElement.connectTo to) p i e); [|exact He].
    intros e0. repeat split. exists [to]. reflexivity.
  - apply (onElement_keeps gateway (configure call) p i e); [|exact He].
    intros e0. destruct (configure_class call e0) as (H1 & H2 & H3 & _ & H5).
    auto.
Qed.

(** X18.  Pointers handed out by the [add...] members stay good.  Each
    member returns the position at which its new element sits; and
    whatever is called on the process afterwards, an element that sits at
    a position still sits there, with its id, its name and its class, and
    with its outgoing edges extended at the back at most. *)
Theorem built_elements_stay {W} (calls : list (BuildCall W))
    (p : Process.t W) (i : NodeId) (e : BPMNElement.t W) :
  Process.elements p !! i = Some e ->
  (exists e',
     Process.elements (buildAll calls p) !! i = Some e'
     /\ BPMNElement.id e' = BPMNElement.id e
     /\ BPMNElement.name e' = BPMNElement.name e
     /\ BPMNElement.getType e' = BPMNElement.getType e
     /\ exists more, BPMNElement.outgoing e' = BPMNElement.outgoing e ++ more)
  /\ (forall id n,
        Process.elements (snd (Process.addStartEvent id n p))
          !! fst (Process.addStartEvent id n p)
        = Some (BPMNElement.mk id n [] (Event true)))
  /\ (forall id n,
        Process.elements (snd (Process.addEndEvent id n p))
          !! fst (Process.addEndEvent id n p)
        = Some (BPMNElement.mk id n [] (Event false)))
  /\ (forall id n time resource,
        Process.elements (snd (Process.addActivity id n time resource p))
          !! fst (Process.addActivity id n time resource p)
        = Some (BPMNElement.mk id n [] (Activity time resource)))
  /\ (forall id n,
        Process.elements (snd (Process.addExclusiveGateway id n p))
          !! fst (Process.addExclusiveGateway id n p)
        = Some (BPMNElement.mk id n [] (ExclusiveGateway [] None)))
  /\ (forall id n diverge,
        Process.elements (snd (Process.addParallelGateway id n diverge p))
          !! fst (Process.addParallelGateway id n diverge p)
        = Some (BPMNElement.mk id n [] (ParallelGateway diverge))).
Proof.
  intros He. split.
  - unfold buildAll. revert p e He.
    induction calls as [|call calls IH]; intros p e He; simpl.
    + exists e. split; [exact He|]. repeat split.
      exists []. rewrite app_nil_r. reflexivity.
    + destruct (build_keeps call p i e He) as (e1 & He1 & Hid & Hn & Ht & m1 & Ho).
      destruct (IH _ e1 He1) as (e' & He' & Hid' & Hn' & Ht' & m2 & Ho').
      exists e'. split; [exact He'|].
      split; [congruence|]. split; [congruence|]. split; [congruence|].
      exists (m1 ++ m2). rewrite Ho', Ho, app_assoc. reflexivity.
  - repeat split; intros; simpl; unfold NodeId;
      apply list_lookup_middle; reflexivity.
Qed.

Lemma built_elements_stay_witness :
  exists e',
    Process.elements
      (buildAll [BuildConnect 1%nat 2%nat;
                 BuildConfigure 1%nat (CallSetDefaultPath (Some 2%nat));
                 BuildEndEvent "e9" "Otro"]
         deadEndProcess) !! 1%nat = Some e'
    /\ BPMNElement.id e' = "gw"
    /\ BPMNElement.name e' = "Decision"
    /\ BPMNElement.getType e' = "ExclusiveGateway".
Proof.
  destruct (proj1 (built_elements_stay
                     [BuildConnect 1%nat 2%nat;
                      BuildConfigure 1%nat (CallSetDefaultPath (Some 2%nat));
                      BuildEndEvent "e9" "Otro"]
                     deadEndProcess 1%nat _ eq_refl))
    as (e' & He' & Hid & Hn & Ht & _).
  exists e'. repeat split; assumption.
Defined.

(** ** Process::simulate *)

Lemma createTokens_lookup count : forall i t0 dt k tk,
  Process.createTokens count i t0 dt !! k = Some tk ->
  Token.candidateId tk = i + 1 + Z.of_nat k
  /\ (Token.startTime tk == t0 + inject_Z (Z.of_nat k) * dt)%Q
  /\ Token.currentTime tk = Token.startTime tk
  /\ Token.completed tk = false
  /\ Token.endReason tk = ""
  /\ Token.data tk = ∅.
Proof.
  induction count as [|count IH]; intros i t0 dt k tk Hk; simpl in Hk.
  - rewrite lookup_nil in Hk. discriminate Hk.
  - destruct k as [|k]; simpl in Hk.
    + injection Hk as <-. simpl. repeat split; [lia|ring].
    + destruct (IH _ _ _ _ _ Hk) as (Hid & Hst & Hrest).
      split; [lia|]. split; [|exact Hrest].
      rewrite Hst, Nat2Z.inj_succ, <- Z.add_1_r, inject_Z_plus. simpl. ring.
Qed.

Lemma createTokens_length count : forall i t0 dt,
  length (Process.createTokens count i t0 dt) = count.
Proof.
  induction count as [|count IH]; intros i t0 dt; simpl; [reflexivity|].
  rewrite IH. reflexivity.
Qed.

(** X19.  The first loop of [simulate] creates exactly [count] tokens; the
    one at position [k] has id [k + 1] (counting from the [i] and the time
    the loop starts with: id [i + 1 + k]) and start time
    [t0 + k * arrivalInterval], its clock is at its start time, it is not
    completed, has no end reason and no data.  Ids are therefore distinct;
    start times coincide when the interval is 0. *)
Theorem createTokens_schedule (count : nat) (i : Z) (t0 dt : Q) :
  length (Process.createTokens count i t0 dt) = count
  /\ (forall k tk,
        Process.createTokens count i t0 dt !! k = Some tk ->
        Token.candidateId tk = i + 1 + Z.of_nat k
        /\ (Token.startTime tk == t0 + inject_Z (Z.of_nat k) * dt)%Q
        /\ Token.currentTime tk = Token.startTime tk
        /\ Token.completed tk = false
        /\ Token.endReason tk = ""
        /\ Token.data tk = ∅)
  /\ (forall k k' tk tk',
        Process.createTokens count i t0 dt !! k = Some tk ->
        Process.createTokens count i t0 dt !! k' = Some tk' ->
        Token.candidateId tk = Token.candidateId tk' -> k = k').
Proof.
  split; [apply createTokens_length|]. split; [apply createTokens_lookup|].
  intros k k' tk tk' Hk Hk' Heq.
  destruct (createTokens_lookup _ _ _ _ _ _ Hk) as (Hid & _).
  destruct (createTokens_lookup _ _ _ _ _ _ Hk') as (Hid' & _).
  lia.
Qed.

Lemma executeToken_identity {W} fuel (elems : list (BPMNElement.t W)) start st s :
  Process.executeToken fuel elems start st = Some s ->
  Token.candidateId (State.token s) = Token.candidateId (State.token st)
  /\ Token.startTime (State.token s) = Token.startTime (State.token st)
  /\ Token.data (State.token s) = Token.data (State.token st).
Proof.
  unfold Process.executeToken. destruct start as [n|].
  - apply run_keeps_token_identity_gen.
  - intros [= <-]. repeat split.
Qed.

Lemma executeTokens_identity {W} fuel (elems : list (BPMNElement.t W)) start todo :
  forall c o w done c' o' w',
    Process.executeTokens fuel elems start todo c o w = Some (done, c', o', w') ->
    Forall2 (fun tk d =>
               Token.candidateId d = Token.candidateId tk
               /\ Token.startTime d = Token.startTime tk
               /\ Token.data d = Token.data tk) todo done.
Proof.
  induction todo as [|tk todo IH]; intros c o w done c' o' w' Hrun;
    simpl in Hrun.
  - injection Hrun as <- _ _ _. constructor.
  - destruct (Process.executeToken fuel elems start _) as [s1|] eqn:E1;
      [|discriminate Hrun].
    destruct (Process.executeTokens fuel elems start todo _ _ _)
      as [[[[done1 c1] o1] w1]|] eqn:E2; [|discriminate Hrun].
    injection Hrun as <- _ _ _. constructor.
    + apply (executeToken_identity _ _ _ _ _ E1).
    + apply (IH _ _ _ _ _ _ _ E2).
Qed.

(** X20.  When [simulate(numCandidates, arrivalInterval)] returns, the
    process holds one token per candidate, whatever tokens it held before:
    the token at position [k] has id [k + 1] and the start time and data
    that the creation loop gave to the token at position [k].  The graph
    and the start element are untouched. *)
Theorem simulate_keeps_schedule {W} (fuel : nat) (numCandidates : Z)
    (arrivalInterval : Q) (p p' : Process.t W) (o o' : list LogEvent)
    (w w' : W) :
  Process.simulate fuel numCandidates arrivalInterval p o w = Some (p', o', w') ->
  length (Process.tokens p') = Z.to_nat numCandidates
  /\ (forall k tk,
        Process.tokens p' !! k = Some tk ->
        Token.candidateId tk = 1 + Z.of_nat k
        /\ exists created,
             Process.createTokens (Z.to_nat numCandidates) 0 0 arrivalInterval
               !! k = Some created
             /\ Token.candidateId tk = Token.candidateId created
             /\ Token.startTime tk = Token.startTime created
             /\ Token.data tk = Token.data created)
  /\ Process.elements p' = Process.elements p
  /\ Process.startElement p' = Process.startElement p
  /\ Process.name p' = Process.name p.
Proof.
  unfold Process.simulate. intros Hrun.
  destruct (Process.executeTokens fuel (Process.elements p)
              (Process.startElement p) _ (Process.context p) o w)
    as [[[[done c1] o1] w1]|] eqn:E; [|discriminate Hrun].
  injection Hrun as <- _ _. simpl.
  pose proof (executeTokens_identity _ _ _ _ _ _ _ _ _ _ _ E) as Hall.
  split; [|split; [|repeat split]].
  - rewrite <- (Forall2_length _ _ _ Hall). apply createTokens_length.
  - intros k tk Hk.
    destruct (Forall2_lookup_r _ _ _ _ _ Hall Hk) as (tk0 & Hk0 & Hid & Hst & Hd).
    destruct (createTokens_lookup _ _ _ _ _ _ Hk0) as (Hid0 & _).
    split; [lia|]. exists tk0. auto.
Qed.

Lemma simulate_keeps_schedule_witness :
  exists p' o',
    Process.simulate 3 2 7 (serialProcess 1) [] tt = Some (p', o', tt)
    /\ length (Process.tokens p') = 2%nat
    /\ Process.elements p' = Process.elements (serialProcess 1).
Proof.
  eexists. eexists. split; [vm_compute; reflexivity|].
  destruct (simulate_keeps_schedule 3 2 7 (serialProcess 1) _ [] _ tt tt
              ltac:(vm_compute; reflexivity)) as (Hlen & _ & Hel & _).
  split; [exact Hlen|exact Hel].
Defined.

Lemma executeTokens_no_start {W} fuel (elems : list (BPMNElement.t W)) todo :
  forall c o w,
    Process.executeTokens fuel elems None todo c o w
    = Some (todo, c,
            o ++ ((fun tk => LogCandidate (Token.candidateId tk)) <$> todo), w).
Proof.
  induction todo as [|tk todo IH]; intros c o w; simpl.
  - rewrite app_nil_r. reflexivity.
  - rewrite IH. rewrite <- app_assoc. reflexivity.
Qed.

(** X21.  Two ways in which [simulate] executes nothing.  With
    [numCandidates <= 0] it returns with no token and the context as it
    was.  On a process without start event it creates the tokens but
    visits no node: every token stays as created, not completed, and the
    context is untouched.  Neither case needs any call depth, and no
    condition of a rule is called. *)
Theorem simulate_without_work {W} (fuel : nat) (numCandidates : Z)
    (arrivalInterval : Q) (p : Process.t W) (o : list LogEvent) (w : W) :
  (numCandidates <= 0 ->
   exists o',
     Process.simulate fuel numCandidates arrivalInterval p o w
     = Some (Process.mk (Process.name p) (Process.elements p)
               (Process.startElement p) (Process.context p) [],
             o', w))
  /\ (Process.startElement p = None ->
      exists o',
        Process.simulate fuel numCandidates arrivalInterval p o w
        = Some (Process.mk (Process.name p) (Process.elements p) None
                  (Process.context p)
                  (Process.createTokens (Z.to_nat numCandidates) 0 0
                     arrivalInterval),
                o', w)).
Proof.
  split.
  - intros Hn. unfold Process.simulate.
    replace (Z.to_nat numCandidates) with 0%nat by lia.
    eexists. reflexivity.
  - intros Hstart. unfold Process.simulate. rewrite Hstart.
    rewrite executeTokens_no_start. eexists. reflexivity.
Qed.

Lemma simulate_without_work_witness :
  (exists o',
     Process.simulate 0 (-3) 1 (serialProcess 1) [] tt
     = Some (Process.mk "serial" (Process.elements (serialProcess 1))
               (Some 0%nat) (Process.context (serialProcess 1)) [], o', tt))
  /\ (exists o',
        Process.simulate 0 2 1 (Process.new "vacio") [] tt
        = Some (Process.mk "vacio" [] None ProcessContext.new
                  [Token.new 1 0; Token.new 2 (0 + 1)], o', tt)).
Proof.
  split.
  - apply (proj1 (simulate_without_work 0 (-3) 1 (serialProcess 1) [] tt)). lia.
  - apply (proj2 (simulate_without_work 0 2 1 (Process.new "vacio") [] tt)).
    reflexivity.
Defined.

(** ** A straight-line process *)

Lemma chain_run durations : forall pre k st,
  is_Some (ProcessContext.getResource "A" (State.context st)) ->
  exists s,
    execute (pre ++ chainFrom (length pre) durations)
      (length durations + 1 + k) (length pre) st = Some s
    /\ State.token s
       = Token.complete "Fin" (advanceAll durations (State.token st))
    /\ ProcessContext.tokensStarted (State.context s)
       = ProcessContext.tokensStarted (State.context st)
    /\ ProcessContext.tokensCompleted (State.context s)
       = ProcessContext.tokensCompleted (State.context st) + 1
    /\ is_Some (ProcessContext.getResource "A" (State.context s)).
Proof.
  induction durations as [|d durations IH]; intros pre k st Hres.
  - cbn [chainFrom length Nat.add].
    rewrite (execute_visit _ k (length pre)
               (BPMNElement.mk "end" "Fin" [] (Event false)))
      by (unfold NodeId; apply list_lookup_middle; reflexivity).
    eexists. split; [reflexivity|]. simpl. repeat split; auto.
  - destruct Hres as [r Hr]. cbn [chainFrom length Nat.add].
    rewrite (activity_visit _ (length durations + 1 + k) (length pre)
               (BPMNElement.mk "step" "Paso" [S (length pre)] (Activity d "A"))
               d "A" st r)
      by (try reflexivity; try exact Hr;
          unfold NodeId; apply list_lookup_middle; reflexivity).
    cbn [BPMNElement.outgoing].
    set (st1 := State.mk _ _ _ _).
    destruct (IH (pre ++ [BPMNElement.mk "step" "Paso" [S (length pre)]
                            (Activity d "A")]) k st1)
      as (s & Hrun & Htok & Hs & Hc & Hres').
    { subst st1. unfold ProcessContext.getResource. simpl.
      rewrite lookup_insert_eq. eexists. reflexivity. }
    rewrite List.length_app, Nat.add_1_r, <- app_assoc in Hrun.
    exists s. split; [exact Hrun|].
    split; [exact Htok|]. split; [exact Hs|]. split; [exact Hc|exact Hres'].
Qed.

Lemma advanceAll_total durations : forall tk,
  (Token.currentTime (advanceAll durations tk)
   == Token.currentTime tk + totalMinutes durations)%Q
  /\ Token.startTime (advanceAll durations tk) = Token.startTime tk
  /\ Token.candidateId (advanceAll durations tk) = Token.candidateId tk.
Proof.
  unfold advanceAll, totalMinutes.
  induction durations as [|d durations IH]; intros tk; simpl.
  - split; [ring|]. split; reflexivity.
  - destruct (IH (Token.advanceTime d tk)) as (Hc & Hs & Hi).
    rewrite Hc, Hs, Hi. simpl. split; [ring|]. split; reflexivity.
Qed.

Lemma chain_tokens durations k todo : forall c o,
  is_Some (ProcessContext.getResource "A" c) ->
  exists c' o',
    Process.executeTokens (length durations + 2 + k) (chainElements durations)
      (Some 0%nat) todo c o tt
    = Some ((fun tk => Token.complete "Fin" (advanceAll durations tk)) <$> todo,
            c', o', tt)
    /\ ProcessContext.tokensStarted c'
       = ProcessContext.tokensStarted c + Z.of_nat (length todo)
    /\ ProcessContext.tokensCompleted c'
       = ProcessContext.tokensCompleted c + Z.of_nat (length todo).
Proof.
  induction todo as [|tk todo IH]; intros c o Hres.
  - exists c, o. simpl. repeat split; lia.
  - cbn [Process.executeTokens Process.executeToken].
    replace (length durations + 2 + k)%nat
      with (S (length durations + 1 + k)) by lia.
    rewrite (execute_visit _ (length durations + 1 + k) 0%nat
               (BPMNElement.mk "start" "Inicio" [1%nat] (Event true)))
      by reflexivity.
    cbn [dispatch BPMNElement.kind Event_execute BPMNElement.outgoing].
    set (st1 := State.print _ _).
    destruct (chain_run durations
                [BPMNElement.mk "start" "Inicio" [1%nat] (Event true)] k st1)
      as (s & Hrun & Htok & Hs & Hc & Hres').
    { exact Hres. }
    change (execute (chainElements durations) (length durations + 1 + k) 1%nat st1
            = Some s) in Hrun.
    rewrite Hrun.
    destruct (IH (State.context s) (State.out s) Hres') as (c' & o' & Hrest & Hs' & Hc').
    replace (S (length durations + 1 + k)) with (length durations + 2 + k)%nat
      by lia.
    destruct s as [tok ctx out []]. cbn [State.context State.out State.world
                                         State.token] in *.
    rewrite Hrest. exists c', o'. rewrite Htok.
    split; [reflexivity|]. subst st1. simpl in Hs, Hc.
    cbn [length]. split; lia.
Qed.

(** X22.  The straight-line process: start, one activity per entry of
    [durations] in a row, all on the registered resource "A", end.
    [simulate] returns for any number of cases and any arrival interval
    (call depth: the length of the line), and whatever the capacity of "A"
    is, zero included: every case is completed at the end event, its
    clock advanced by every duration in turn, and the context counts one
    start and one completion per case.  With doubles read as exact
    numbers, the cycle time of every case is the sum of the durations. *)
Theorem chain_simulation (capacity : Z) (durations : list Q)
    (numCandidates : Z) (arrivalInterval : Q) (k : nat) :
  exists p' o',
    Process.simulate (length durations + 2 + k) numCandidates arrivalInterval
      (chainProcess capacity durations) [] tt = Some (p', o', tt)
    /\ Process.tokens p'
       = (fun tk => Token.complete "Fin" (advanceAll durations tk))
           <$> Process.createTokens (Z.to_nat numCandidates) 0 0 arrivalInterval
    /\ (forall tk, tk ∈ Process.tokens p' ->
          Token.completed tk = true
          /\ Token.endReason tk = "Fin"
          /\ (Token.getCycleTime tk == totalMinutes durations)%Q)
    /\ ProcessContext.tokensStarted (Process.context p')
       = Z.of_nat (Z.to_nat numCandidates)
    /\ ProcessContext.tokensCompleted (Process.context p')
       = Z.of_nat (Z.to_nat numCandidates).
Proof.
  unfold Process.simulate. cbn [chainProcess Process.elements
                                Process.startElement Process.context].
  destruct (chain_tokens durations k
              (Process.createTokens (Z.to_nat numCandidates) 0 0 arrivalInterval)
              (ProcessContext.addResource "A" capacity 60 ProcessContext.new) [])
    as (c' & o' & Hrun & Hs & Hc).
  { unfold ProcessContext.getResource, ProcessContext.addResource.
    cbn [ProcessContext.resources ProcessContext.new].
    rewrite lookup_empty, lookup_insert_eq. eexists. reflexivity. }
  rewrite Hrun. eexists. eexists. split; [reflexivity|]. simpl.
  split; [reflexivity|]. split; [|split].
  - intros tk Hin. apply list_elem_of_fmap in Hin as (tk0 & -> & Hin0).
    apply list_elem_of_lookup in Hin0 as (i & Hi).
    destruct (createTokens_lookup _ _ _ _ _ _ Hi) as (_ & _ & Hclock & _).
    destruct (advanceAll_total durations tk0) as (Hc0 & Hs0 & _).
    split; [reflexivity|]. split; [reflexivity|].
    unfold Token.getCycleTime. simpl. rewrite Hc0, Hs0, Hclock. ring.
  - rewrite Hs, createTokens_length. simpl. lia.
  - rewrite Hc, createTokens_length. simpl. lia.
Qed.

(** ** Cycles *)

(** X23.  The engine has no cycle detection.  Take a set of nodes and a
    condition on states such that every node of the set, visited in a
    state under the condition, hands the token to a node of the set, in a
    state under the condition.  Then a run that enters the set under the
    condition returns at no call depth: in the source the recursion never
    unwinds. *)
Theorem trap_never_returns {W} (elems : list (BPMNElement.t W))
    (inTrap : NodeId -> Prop) (cond : State.t W -> Prop) :
  (forall n st,
     inTrap n -> cond st ->
     exists e,
       elems !! n = Some e
       /\ forall exec, exists n' st',
            inTrap n' /\ cond st' /\ dispatch exec e st = exec n' st') ->
  forall fuel n st, inTrap n -> cond st -> execute elems fuel n st = None.
Proof.
  intros Htrap fuel.
  induction fuel as [|fuel IH]; intros n st Hn Hst; [reflexivity|].
  destruct (Htrap n st Hn Hst) as (e & He & Hfwd).
  rewrite (execute_visit elems fuel n e st He).
  destruct (Hfwd (execute elems fuel)) as (n' & st' & Hn' & Hst' & ->).
  apply (IH n' st' Hn' Hst').
Qed.

Lemma trap_never_returns_witness :
  execute reworkElements 50 0%nat
    (initial (Token.new 1 0)
       (ProcessContext.addResource "A" 1 60 ProcessContext.new) tt) = None.
Proof.
  change (execute reworkElements 50 0%nat
            (initial (Token.new 1 0)
               (ProcessContext.addResource "A" 1 60 ProcessContext.new) tt))
    with (execute reworkElements 49 1%nat
            (State.print (LogStart 1 0)
               (State.setContext
                  (ProcessContext.tokenStarted
                     (ProcessContext.addResource "A" 1 60 ProcessContext.new))
                  (initial (Token.new 1 0)
                     (ProcessContext.addResource "A" 1 60 ProcessContext.new)
                     tt)))).
  apply (trap_never_returns reworkElements
           (fun n => n = 1%nat \/ n = 2%nat)
           (fun st => is_Some (ProcessContext.getResource "A" (State.context st)))).
  - intros n st [-> | ->] [r Hr].
    + eexists. split; [reflexivity|]. intros exec.
      exists 2%nat. eexists. split; [right; reflexivity|]. split.
      2:{ unfold dispatch. cbn [BPMNElement.kind]. unfold Activity_execute.
          rewrite Hr, waitForResource_id. cbn [BPMNElement.outgoing].
          reflexivity. }
      unfold ProcessContext.getResource. simpl. rewrite lookup_insert_eq.
      eexists. reflexivity.
    + eexists. split; [reflexivity|]. intros exec.
      exists 1%nat. eexists. split; [left; reflexivity|]. split.
      2:{ reflexivity. }
      simpl. exists r. exact Hr.
  - left. reflexivity.
  - eexists. vm_compute. reflexivity.
Defined.

(** ** MetricsExporter: the summary figures *)

Lemma visit_pending tk acc :
  Token.completed tk = false -> MetricsExporter.visit tk acc = acc.
Proof.
  intros H. unfold MetricsExporter.visit, Token.isCompleted. rewrite H.
  reflexivity.
Qed.

Lemma visit_completed tk acc :
  Token.completed tk = true ->
  MetricsExporter.totalTokens (MetricsExporter.visit tk acc)
  = MetricsExporter.totalTokens acc
  /\ MetricsExporter.completedTokens (MetricsExporter.visit tk acc)
     = MetricsExporter.completedTokens acc + 1
  /\ MetricsExporter.totalCycleTime (MetricsExporter.visit tk acc)
     = (MetricsExporter.totalCycleTime acc + Token.getCycleTime tk)%Q
  /\ (MetricsExporter.minCycleTime (MetricsExporter.visit tk acc)
      <= MetricsExporter.minCycleTime acc)%Q
  /\ (MetricsExporter.minCycleTime (MetricsExporter.visit tk acc)
      <= Token.getCycleTime tk)%Q
  /\ (MetricsExporter.maxCycleTime acc
      <= MetricsExporter.maxCycleTime (MetricsExporter.visit tk acc))%Q
  /\ (Token.getCycleTime tk
      <= MetricsExporter.maxCycleTime (MetricsExporter.visit tk acc))%Q.
Proof.
  intros H. unfold MetricsExporter.visit, Token.isCompleted. rewrite H.
  cbv zeta. simpl.
  split; [reflexivity|]. split; [reflexivity|]. split; [reflexivity|].
  destruct (Qlt_le_dec (Token.getCycleTime tk) (MetricsExporter.minCycleTime acc))
    as [Hlt|Hle];
    destruct (Qlt_le_dec (MetricsExporter.maxCycleTime acc) (Token.getCycleTime tk))
      as [Hlt'|Hle'];
    repeat split; try apply Qle_refl; try assumption;
    apply Qlt_le_weak; assumption.
Qed.

Lemma statistics_fold tokens : forall acc,
  let s := fold_left (fun a token => MetricsExporter.visit token a) tokens acc in
  MetricsExporter.totalTokens s = MetricsExporter.totalTokens acc
  /\ MetricsExporter.completedTokens s
     = MetricsExporter.completedTokens acc
       + Z.of_nat (length (completedCycleTimes tokens))
  /\ (MetricsExporter.totalCycleTime s
      == MetricsExporter.totalCycleTime acc
         + totalMinutes (completedCycleTimes tokens))%Q
  /\ (MetricsExporter.minCycleTime s <= MetricsExporter.minCycleTime acc)%Q
  /\ (MetricsExporter.maxCycleTime acc <= MetricsExporter.maxCycleTime s)%Q
  /\ (forall x, x ∈ completedCycleTimes tokens ->
        (MetricsExporter.minCycleTime s <= x)%Q
        /\ (x <= MetricsExporter.maxCycleTime s)%Q)
  /\ (completedCycleTimes tokens = [] ->
      MetricsExporter.minCycleTime s = MetricsExporter.minCycleTime acc
      /\ MetricsExporter.maxCycleTime s = MetricsExporter.maxCycleTime acc).
Proof.
  induction tokens as [|tk tokens IH]; intros acc; cbn [fold_left]; cbv zeta.
  - unfold completedCycleTimes. simpl.
    split; [reflexivity|]. split; [lia|]. split; [ring|].
    split; [apply Qle_refl|]. split; [apply Qle_refl|].
    split; [intros y Hy; inversion Hy|]. intros _. split; reflexivity.
  - destruct (IH (MetricsExporter.visit tk acc))
      as (Ht & Hc & Hsum & Hmin & Hmax & Hall & Hnone).
    destruct (Token.completed tk) eqn:E.
    + destruct (visit_completed tk acc E)
        as (Vt & Vc & Vsum & Vmin & Vlo & Vmax & Vhi).
      assert (Hlist : completedCycleTimes (tk :: tokens)
                      = Token.getCycleTime tk :: completedCycleTimes tokens).
      { unfold completedCycleTimes, Token.isCompleted. cbn [List.filter].
        rewrite E. reflexivity. }
      rewrite Hlist, Ht, Hc, Hsum, Vt, Vc, Vsum.
      cbn [length totalMinutes fold_right].
      fold (totalMinutes (completedCycleTimes tokens)).
      split; [reflexivity|]. split; [lia|]. split; [ring|].
      split; [eapply Qle_trans; [exact Hmin|exact Vmin]|].
      split; [eapply Qle_trans; [exact Vmax|exact Hmax]|].
      split; [|intros Habs; discriminate Habs].
      intros y Hy. apply elem_of_cons in Hy as [->|Hy]; [|apply Hall, Hy].
      split; [eapply Qle_trans; [exact Hmin|exact Vlo]|].
      eapply Qle_trans; [exact Vhi|exact Hmax].
    + assert (Hlist : completedCycleTimes (tk :: tokens)
                      = completedCycleTimes tokens).
      { unfold completedCycleTimes, Token.isCompleted. cbn [List.filter].
        rewrite E. reflexivity. }
      rewrite Hlist. rewrite (visit_pending tk acc E) in *.
      repeat split; try assumption; apply Hall || apply Hnone; assumption.
Qed.

Lemma statistics_completed (tokens : list Token.t) :
  MetricsExporter.completedTokens (MetricsExporter.statistics tokens)
  = Z.of_nat (length (List.filter Token.isCompleted tokens)).
Proof.
  unfold MetricsExporter.statistics.
  destruct (statistics_fold tokens
              (MetricsExporter.mk (Z.of_nat (length tokens)) 0 0 1000000000 0))
    as (_ & Hc & _).
  cbv zeta in Hc. rewrite Hc. simpl.
  unfold completedCycleTimes. rewrite length_fmap. reflexivity.
Qed.



Lemma closing_fold tokens : forall acc,
  fold_left
    (fun '(total, count) token =>
       if Token.isCompleted token
       then ((total + Token.getCycleTime token)%Q, count + 1)
       else (total, count))
    tokens
    (MetricsExporter.totalCycleTime acc, MetricsExporter.completedTokens acc)
  = (MetricsExporter.totalCycleTime
       (fold_left (fun a token => MetricsExporter.visit token a) tokens acc),
     MetricsExporter.completedTokens
       (fold_left (fun a token => MetricsExporter.visit token a) tokens acc)).
Proof.
  induction tokens as [|tk tokens IH]; intros acc; cbn [fold_left].
  - reflexivity.
  - rewrite <- IH. unfold MetricsExporter.visit.
    destruct (Token.isCompleted tk); reflexivity.
Qed.

(** X26.  The two reports agree.  The average cycle time that
    [Process::simulate] prints at the end is the average that
    [exportSummary] writes for the same tokens; [simulate] prints none
    exactly when no token is completed, where the summary has 0. *)
Theorem closing_average_agrees (tokens : list Token.t) :
  closingAverage tokens
  = (if 0 <? MetricsExporter.completedTokens (MetricsExporter.statistics tokens)
     then Some (MetricsExporter.avgCycleTime (MetricsExporter.statistics tokens))
     else None)
  /\ (closingAverage tokens = None
      <-> List.filter Token.isCompleted tokens = []).
Proof.
  assert (Heq :
    closingAverage tokens
    = (if 0 <? MetricsExporter.completedTokens (MetricsExporter.statistics tokens)
       then Some (MetricsExporter.avgCycleTime (MetricsExporter.statistics tokens))
       else None)).
  { unfold closingAverage, MetricsExporter.statistics,
      MetricsExporter.avgCycleTime.
    pose proof (closing_fold tokens
                  (MetricsExporter.mk (Z.of_nat (length tokens)) 0 0
                     1000000000 0)) as Hf.
    cbn [MetricsExporter.totalCycleTime MetricsExporter.completedTokens] in Hf.
    rewrite Hf. destruct (0 <? _); reflexivity. }
  split; [exact Heq|].
  rewrite Heq.
  rewrite (statistics_completed tokens).
  destruct (List.filter Token.isCompleted tokens) as [|x l]; simpl.
  - split; reflexivity.
  - split; intros H; discriminate H.
Qed.

(** ** The context invariants across a run, on an example *)

Lemma execute_keeps_histogram_witness :
  exists s,
    execute (forkJoinElements [10; 20; 30]%Q) 5 0%nat
      (initial (Token.new 1 0) (Process.context (forkJoinProcess [])) tt)
    = Some s
    /\ ProcessContext.histogramTotal (State.context s)
       = ProcessContext.tokensCompleted (State.context s).
Proof.
  eexists. split; [vm_compute; reflexivity|].
  refine (execute_keeps_histogram (forkJoinElements [10; 20; 30]%Q) 5 0%nat
            (initial (Token.new 1 0) (Process.context (forkJoinProcess [])) tt)
            _ _ _).
  - vm_compute. reflexivity.
  - reflexivity.
Defined.

Lemma execute_keeps_capacity_witness :
  exists s,
    execute (Process.elements (serialProcess 1)) 3 0%nat
      (initial (Token.new 2 0) (Process.context (serialProcess 1)) tt) = Some s
    /\ map_Forall (fun _ r => Resource.inv r)
         (ProcessContext.resources (State.context s)).
Proof.
  eexists. split; [vm_compute; reflexivity|].
  refine (execute_keeps_capacity (Process.elements (serialProcess 1)) 3 0%nat
            (initial (Token.new 2 0) (Process.context (serialProcess 1)) tt)
            _ _ _).
  - vm_compute. reflexivity.
  - intros k r Hr. cbn in Hr.
    apply lookup_insert_Some in Hr as [[_ <-]|[_ Hr]].
    + unfold Resource.inv. simpl. lia.
    + rewrite lookup_empty in Hr. discriminate Hr.
Defined.

(** X29.  The engine never sets the simulation time of the context: a run
    returns the context with the [currentSimulationTime] it got, however
    far the clocks of the tokens have moved. *)
Theorem run_keeps_simulation_time {W} (elems : list (BPMNElement.t W))
    (fuel : nat) (n : NodeId) (st s : State.t W) :
  execute elems fuel n st = Some s ->
  ProcessContext.getCurrentTime (State.context s)
  = ProcessContext.getCurrentTime (State.context st).
Proof.
  intros Hrun.
  apply (execute_keeps
           (fun c => ProcessContext.getCurrentTime c
                     = ProcessContext.getCurrentTime (State.context st))
           ltac:(intros c H; exact H)
           ltac:(intros c reason H; exact H)
           ltac:(intros c k r d H _; exact H)
           elems fuel n st s Hrun).
  reflexivity.
Qed.

Lemma run_keeps_simulation_time_witness :
  exists s,
    execute (Process.elements (serialProcess 1)) 3 0%nat
      (initial (Token.new 1 0)
         (ProcessContext.setCurrentTime 42 (Process.context (serialProcess 1)))
         tt) = Some s
    /\ ProcessContext.getCurrentTime (State.context s) = 42%Q.
Proof.
  eexists. split; [vm_compute; reflexivity|].
  refine (run_keeps_simulation_time (Process.elements (serialProcess 1)) 3 0%nat
            (initial (Token.new 1 0)
               (ProcessContext.setCurrentTime 42
                  (Process.context (serialProcess 1))) tt) _ _).
  vm_compute. reflexivity.
Defined.
